(** * Pulse AI simulation engine: drift series generator and CareScore

    A shallow embedding of [generateSimulationData] and [calculateCareScore]
    (frontend/src/lib/simulation.ts, the second module held by
    src/frontend/src/lib/api.ts) and the properties of the specification
    that concern them.

    Modelling choices.
    - A JavaScript [number] of a health sample is a rational: a finite
      value, with exact arithmetic.  The decimal literals of the source
      (0.5, 0.6, 7.5) are the rationals they denote, and [==] is equality
      of numbers.  NaN and the infinities are not samples: the generator
      never produces them and the specification leaves them to the caller.
      Module [B64] holds [calculateCareScore] once more over IEEE 754
      binary64 values, to replay the literal scenarios with the rounding
      of the engine.
    - [Math.random()] and [new Date()] read the outside world.  Both are
      calls in a small state monad [M] over a [World] that holds the tape
      of values each call will return and the number of calls made so far.
      The source reads the clock once per iteration of the loop, and so
      does the model.
    - A date is the number of a calendar day in local time; [subDays] moves
      it by whole days and [format d "yyyy-MM-dd"] renders it, so the
      [date] field holds the day number that the string denotes. *)

From Stdlib Require Import QArith Qminmax Qround ZArith List Sorted Lia Lqa Bool String.
From Stdlib Require Import Floats Uint63.
From Stdlib Require Import Ascii DecimalString DecimalZ DecimalPos.
Import ListNotations.

Local Open Scope Q_scope.

(** ** JavaScript primitives *)

Definition number := Q.

Definition of_nat (i : nat) : number := inject_Z (Z.of_nat i).

(** [a > b] and [a < b] on numbers. *)
Definition num_gt (a b : number) : bool :=
  match a ?= b with Gt => true | _ => false end.

Definition num_lt (a b : number) : bool :=
  match a ?= b with Lt => true | _ => false end.

Infix ">?" := num_gt (at level 70, no associativity) : Q_scope.
Infix "<?" := num_lt (at level 70, no associativity) : Q_scope.

Module Math.

Definition max (a b : number) : number := Qmax a b.

Definition min (a b : number) : number := Qmin a b.

(** [Math.round]: the nearest integer, a tie going to the larger one. *)
Definition round (x : number) : number := inject_Z (Qfloor (x + 0.5)).

End Math.

(** ** The outside world and the monad of calls that read it *)

Record World := {
  random_tape : nat -> number;  (* what the k-th call of Math.random() returns *)
  clock_tape : nat -> Z;        (* the calendar day the k-th new Date() falls on *)
  random_calls : nat;
  clock_calls : nat
}.

Definition M (A : Type) : Type := World -> A * World.

Definition ret {A} (a : A) : M A := fun w => (a, w).

Definition bind {A B} (c : M A) (k : A -> M B) : M B :=
  fun w => let (a, w') := c w in k a w'.

Notation "x <- c ;; k" := (bind c (fun x => k))
  (at level 61, c at next level, right associativity).

Definition Math_random : M number := fun w =>
  let '{| random_tape := rt; clock_tape := ct;
          random_calls := r; clock_calls := c |} := w in
  (rt r, {| random_tape := rt; clock_tape := ct;
            random_calls := S r; clock_calls := c |}).

Definition new_Date : M Z := fun w =>
  let '{| random_tape := rt; clock_tape := ct;
          random_calls := r; clock_calls := c |} := w in
  (ct c, {| random_tape := rt; clock_tape := ct;
            random_calls := r; clock_calls := S c |}).

(** date-fns, on calendar days. *)
Definition subDays (d : Z) (amount : nat) : Z := (d - Z.of_nat amount)%Z.
Definition format (d : Z) : Z := d.

(** [for (let i = lo; i < hi; i++) body], threading the loop's data. *)
Fixpoint for_loop {S : Type} (n i : nat) (body : nat -> S -> M S) (s : S) : M S :=
  match n with
  | O => ret s
  | Datatypes.S n' => s' <- body i s ;; for_loop n' (i + 1) body s'
  end.

Definition for_range {S : Type} (lo hi : nat) (body : nat -> S -> M S) (s : S) : M S :=
  for_loop (hi - lo) lo body s.

(** ** Data model *)

Record HealthMetric := {
  date : Z;
  heartRate : number;
  hrv : number;
  sleepDuration : number;
  activityLevel : number;
  breathingRate : number;
  systolicBP : number;
  diastolicBP : number;
  bloodSugar : number;
  symptoms : list string
}.

Record CareScoreBreakdown := {
  severity : number;
  persistence : number;
  crossSignal : number;
  manualModifier : number;
  total : number
}.

Inductive Status := Stable | Mild | Moderate | High.

Record AnalysisResult := {
  currentScore : number;
  breakdown : CareScoreBreakdown;
  status : Status;
  driftDetected : bool;
  confidence : number;
  stability : number;
  trends : list HealthMetric
}.

(** Baseline values for a healthy individual. *)
Module BASELINE.

Definition heartRate : number := 70.
Definition hrv : number := 65.
Definition sleepDuration : number := 7.5.
Definition breathingRate : number := 14.
Definition systolicBP : number := 120.
Definition diastolicBP : number := 80.
Definition bloodSugar : number := 90.

End BASELINE.

(** ** generateSimulationData *)

Definition days : nat := 60.

(** [const noise = (scale) => (Math.random() - 0.5) * scale]. *)
Definition noise (scale : number) : M number :=
  r <- Math_random ;; ret ((r - 0.5) * scale).

(** [const driftFactor = i > 30 ? (i - 30) / 30 : 0]. *)
Definition driftFactor (i : nat) : number :=
  if (30 <? i)%nat then (of_nat i - 30) / 30 else 0.

(** The body of the loop for day index [i]: the sample that is pushed.
    The fields of the object literal are evaluated in the order written,
    so the eight noise draws are made in that order. *)
Definition sample (i : nat) : M HealthMetric :=
  now <- new_Date ;;
  let d := subDays now (days - 1 - i) in
  n_hr <- noise 5 ;;
  n_hrv <- noise 10 ;;
  n_sleep <- noise 1 ;;
  n_act <- noise 2000 ;;
  n_br <- noise 2 ;;
  n_sys <- noise 5 ;;
  n_dia <- noise 5 ;;
  n_sugar <- noise 10 ;;
  ret {| date := format d;
         heartRate := BASELINE.heartRate + (driftFactor i * 15) + n_hr;
         hrv := BASELINE.hrv - (driftFactor i * 20) + n_hrv;
         sleepDuration :=
           Math.max 4 (BASELINE.sleepDuration - (driftFactor i * 2) + n_sleep);
         activityLevel := 8000 - (driftFactor i * 3000) + n_act;
         breathingRate := BASELINE.breathingRate + (driftFactor i * 4) + n_br;
         systolicBP := BASELINE.systolicBP + (driftFactor i * 10) + n_sys;
         diastolicBP := BASELINE.diastolicBP + (driftFactor i * 5) + n_dia;
         bloodSugar := BASELINE.bloodSugar + (driftFactor i * 15) + n_sugar;
         symptoms := if (45 <? i)%nat
                     then ["Fatigue"; "Mild Dizziness"]%string else [] |}.

Definition generateSimulationData : M (list HealthMetric) :=
  for_range 0 days
    (fun i data => x <- sample i ;; ret (data ++ [x]))
    [].

(** ** calculateCareScore *)

Definition calculateCareScore (metric : HealthMetric) : M AnalysisResult :=
  (* 1. Severity Score (0-40) *)
  let hrDev := Math.max 0 ((heartRate metric - BASELINE.heartRate) / 10) in
  let hrvDev := Math.max 0 ((BASELINE.hrv - hrv metric) / 10) in
  let sleepDev := Math.max 0 (BASELINE.sleepDuration - sleepDuration metric) in
  let severity := (hrDev + hrvDev + sleepDev) * 5 in
  let severity := Math.min 40 severity in
  (* 2. Persistence Score (0-25) *)
  let persistence := Math.min 25 (severity * 0.6) in
  (* 3. Cross-Signal Validation (0-20) *)
  let signals := 0 in
  let signals :=
    if heartRate metric >? BASELINE.heartRate + 5 then signals + 1 else signals in
  let signals :=
    if hrv metric <? BASELINE.hrv - 5 then signals + 1 else signals in
  let signals :=
    if sleepDuration metric <? BASELINE.sleepDuration - 1 then signals + 1 else signals in
  let signals :=
    if breathingRate metric >? BASELINE.breathingRate + 2 then signals + 1 else signals in
  let crossSignal := Math.min 20 (signals * 5) in
  (* 4. Manual Modifier (0-15) *)
  let manual := 0 in
  let manual := if systolicBP metric >? 130 then manual + 5 else manual in
  let manual := if bloodSugar metric >? 110 then manual + 5 else manual in
  let manual := if (0 <? List.length (symptoms metric))%nat then manual + 5 else manual in
  let manual := Math.min 15 manual in
  let totalScore := Math.round (severity + persistence + crossSignal + manual) in
  let status := Stable in
  let status := if totalScore >? 30 then Mild else status in
  let status := if totalScore >? 50 then Moderate else status in
  let status := if totalScore >? 70 then High else status in
  r <- Math_random ;;
  ret {| currentScore := totalScore;
         breakdown := {| severity := severity; persistence := persistence;
                         crossSignal := crossSignal; manualModifier := manual;
                         total := totalScore |};
         status := status;
         driftDetected := (totalScore >? 30);
         confidence := 85 + (r * 10);
         stability := Math.max 0 (100 - totalScore);
         trends := [] |}.

(** ** Vocabulary of the properties *)

(** Running a call in a world: its result. *)
Definition run {A} (c : M A) (w : World) : A := fst (c w).

(** The world after [k] more iterations of the generator's loop: eight
    draws and one reading of the clock each. *)
Definition skip (w : World) (k : nat) : World :=
  {| random_tape := random_tape w; clock_tape := clock_tape w;
     random_calls := random_calls w + 8 * k;
     clock_calls := clock_calls w + k |}.

(** What iteration [i] pushes when the loop was entered in world [w]. *)
Definition pushed (w : World) (i : nat) : HealthMetric :=
  run (sample i) (skip w i).

(** The [j]-th number drawn by iteration [i] of the loop entered in [w]. *)
Definition draw (w : World) (i j : nat) : number :=
  random_tape w (random_calls w + (8 * i + j)).

Definition at_baseline (x : HealthMetric) : Prop :=
  heartRate x == 70 /\ hrv x == 65 /\ sleepDuration x == 7.5 /\
  activityLevel x == 8000 /\ breathingRate x == 14 /\
  systolicBP x == 120 /\ diastolicBP x == 80 /\ bloodSugar x == 90.

Definition has_symptoms (x : HealthMetric) : bool :=
  match symptoms x with [] => false | _ :: _ => true end.

(** The locals of [calculateCareScore], as functions of the sample. *)
Definition severity_of (metric : HealthMetric) : number :=
  let hrDev := Math.max 0 ((heartRate metric - BASELINE.heartRate) / 10) in
  let hrvDev := Math.max 0 ((BASELINE.hrv - hrv metric) / 10) in
  let sleepDev := Math.max 0 (BASELINE.sleepDuration - sleepDuration metric) in
  Math.min 40 ((hrDev + hrvDev + sleepDev) * 5).

Definition persistence_of (metric : HealthMetric) : number :=
  Math.min 25 (severity_of metric * 0.6).

Definition signals_of (metric : HealthMetric) : number :=
  let signals := 0 in
  let signals :=
    if heartRate metric >? BASELINE.heartRate + 5 then signals + 1 else signals in
  let signals :=
    if hrv metric <? BASELINE.hrv - 5 then signals + 1 else signals in
  let signals :=
    if sleepDuration metric <? BASELINE.sleepDuration - 1 then signals + 1 else signals in
  if breathingRate metric >? BASELINE.breathingRate + 2 then signals + 1 else signals.

Definition crossSignal_of (metric : HealthMetric) : number :=
  Math.min 20 (signals_of metric * 5).

Definition manual_of (metric : HealthMetric) : number :=
  let manual := 0 in
  let manual := if systolicBP metric >? 130 then manual + 5 else manual in
  let manual := if bloodSugar metric >? 110 then manual + 5 else manual in
  let manual := if (0 <? List.length (symptoms metric))%nat then manual + 5 else manual in
  Math.min 15 manual.

Definition totalScore_of (metric : HealthMetric) : number :=
  Math.round (severity_of metric + persistence_of metric
              + crossSignal_of metric + manual_of metric).

(** The status block of [calculateCareScore], as a function of the total. *)
Definition classify (totalScore : number) : Status :=
  let status := Stable in
  let status := if totalScore >? 30 then Mild else status in
  let status := if totalScore >? 50 then Moderate else status in
  if totalScore >? 70 then High else status.

(** Two samples that agree, as numbers and symptom lists, on every field
    but [date], [activityLevel] and [diastolicBP]. *)
Definition agree_on_read (m1 m2 : HealthMetric) : Prop :=
  heartRate m1 == heartRate m2 /\ hrv m1 == hrv m2 /\
  sleepDuration m1 == sleepDuration m2 /\
  breathingRate m1 == breathingRate m2 /\
  systolicBP m1 == systolicBP m2 /\ bloodSugar m1 == bloodSugar m2 /\
  symptoms m1 = symptoms m2.

(** Two results that agree on every field but [confidence]. *)
Definition same_but_confidence (r1 r2 : AnalysisResult) : Prop :=
  currentScore r1 = currentScore r2 /\
  severity (breakdown r1) == severity (breakdown r2) /\
  persistence (breakdown r1) == persistence (breakdown r2) /\
  crossSignal (breakdown r1) == crossSignal (breakdown r2) /\
  manualModifier (breakdown r1) == manualModifier (breakdown r2) /\
  total (breakdown r1) = total (breakdown r2) /\
  status r1 = status r2 /\
  driftDetected r1 = driftDetected r2 /\
  stability r1 = stability r2 /\
  trends r1 = trends r2.

(** *** Concrete worlds and samples *)

(** A world whose every draw is 0.5 (so every noise term is zero) and whose
    clock stays on day 20000. *)
Definition world0 : World :=
  {| random_tape := fun _ => 0.5; clock_tape := fun _ => 20000%Z;
     random_calls := 0; clock_calls := 0 |}.

(** A world with other draws, on another day, after some calls. *)
Definition world1 : World :=
  {| random_tape := fun k => 1 / (of_nat k + 2); clock_tape := fun _ => 19000%Z;
     random_calls := 7; clock_calls := 3 |}.

(** The sample of the literal scenario, with its free fields. *)
Definition literal_sample (d : Z) (act dia : number) : HealthMetric :=
  {| date := d; heartRate := 100; hrv := 45; sleepDuration := 5.5;
     activityLevel := act; breathingRate := 18; systolicBP := 135;
     diastolicBP := dia; bloodSugar := 120; symptoms := ["Fatigue"%string] |}.

(** The sample at the fixed baseline, with its free fields. *)
Definition baseline_sample (d : Z) (act : number) : HealthMetric :=
  {| date := d; heartRate := 70; hrv := 65; sleepDuration := 7.5;
     activityLevel := act; breathingRate := 14; systolicBP := 120;
     diastolicBP := 80; bloodSugar := 90; symptoms := [] |}.

(** A sample whose four components add up to exactly 50. *)
Definition boundary50 : HealthMetric :=
  {| date := 20000; heartRate := 101.25; hrv := 65; sleepDuration := 7.5;
     activityLevel := 8000; breathingRate := 18; systolicBP := 135;
     diastolicBP := 80; bloodSugar := 120; symptoms := ["Fatigue"%string] |}.

(** Every deviation, signal and modifier at its largest. *)
Definition saturated : HealthMetric :=
  {| date := 20000; heartRate := 160; hrv := 20; sleepDuration := 4;
     activityLevel := 5000; breathingRate := 18; systolicBP := 135;
     diastolicBP := 85; bloodSugar := 120; symptoms := ["Fatigue"%string] |}.

(** Two different samples with the same total, 91. *)
Definition sample91 : HealthMetric := literal_sample 20000 5000 85.

Definition sample91' : HealthMetric :=
  {| date := 19000; heartRate := 110; hrv := 55; sleepDuration := 5.5;
     activityLevel := 7000; breathingRate := 17; systolicBP := 140;
     diastolicBP := 95; bloodSugar := 111;
     symptoms := ["Fatigue"; "Mild Dizziness"]%string |}.

(** [sample91] with other values in the three fields that are not read,
    and the same numbers written as other fractions. *)
Definition sample91_other : HealthMetric :=
  {| date := 12345; heartRate := 200 # 2; hrv := 45; sleepDuration := 11 # 2;
     activityLevel := 0; breathingRate := 18; systolicBP := 135;
     diastolicBP := 300; bloodSugar := 120; symptoms := ["Fatigue"%string] |}.

(** ** The score in binary64 arithmetic

    The same function with each [number] an IEEE 754 binary64 value and each
    operation rounded as JavaScript rounds it, to replay the literal
    scenarios with the arithmetic of the engine.  [0.6] is here the double
    nearest to 0.6; every other literal of the function is a double.  The
    random draw is passed in. *)

Module B64.

Local Open Scope float_scope.

Definition num_gt (a b : float) : bool := PrimFloat.ltb b a.

Definition num_lt (a b : float) : bool := PrimFloat.ltb a b.

(** [Math.max]: NaN if either argument is, and [+0] above [-0]. *)
Definition max (a b : float) : float :=
  if is_nan a || is_nan b then nan
  else if PrimFloat.ltb a b then b
  else if PrimFloat.ltb b a then a
  else match PrimFloat.classify a with NZero => b | _ => a end.

(** [Math.min]: NaN if either argument is, and [-0] below [+0]. *)
Definition min (a b : float) : float :=
  if is_nan a || is_nan b then nan
  else if PrimFloat.ltb a b then a
  else if PrimFloat.ltb b a then b
  else match PrimFloat.classify a with PZero => b | _ => a end.

(** [Math.round]: the integer nearest to the exact value of [x], a tie
    going to the larger one; a zero result keeps the sign of [x]. *)
Definition round (x : float) : float :=
  match Prim2SF x with
  | S754_finite s m e =>
      if (0 <=? e)%Z then x
      else
        let v := if s then Z.neg m else Z.pos m in
        let n := ((2 * v + 2 ^ (- e)) / 2 ^ (1 - e))%Z in
        let a := of_uint63 (Uint63.of_Z (Z.abs n)) in
        if (n <? 0)%Z then - a
        else if (n =? 0)%Z then (if s then - 0 else 0)
        else a
  | _ => x
  end.

Record HealthMetric := {
  date : Z;
  heartRate : float;
  hrv : float;
  sleepDuration : float;
  activityLevel : float;
  breathingRate : float;
  systolicBP : float;
  diastolicBP : float;
  bloodSugar : float;
  symptoms : list string
}.

Record CareScoreBreakdown := {
  severity : float;
  persistence : float;
  crossSignal : float;
  manualModifier : float;
  total : float
}.

Record AnalysisResult := {
  currentScore : float;
  breakdown : CareScoreBreakdown;
  status : Status;
  driftDetected : bool;
  confidence : float;
  stability : float;
  trends : list HealthMetric
}.

Module BASELINE.

Definition heartRate : float := 70.
Definition hrv : float := 65.
Definition sleepDuration : float := 7.5.
Definition breathingRate : float := 14.

End BASELINE.

Definition calculateCareScore (metric : HealthMetric) (random : float)
  : AnalysisResult :=
  let hrDev := max 0 ((heartRate metric - BASELINE.heartRate) / 10) in
  let hrvDev := max 0 ((BASELINE.hrv - hrv metric) / 10) in
  let sleepDev := max 0 (BASELINE.sleepDuration - sleepDuration metric) in
  let severity := (hrDev + hrvDev + sleepDev) * 5 in
  let severity := min 40 severity in
  let persistence := min 25 (severity * 0x1.3333333333333p-1) in
  let signals := 0 in
  let signals :=
    if num_gt (heartRate metric) (BASELINE.heartRate + 5) then signals + 1 else signals in
  let signals :=
    if num_lt (hrv metric) (BASELINE.hrv - 5) then signals + 1 else signals in
  let signals :=
    if num_lt (sleepDuration metric) (BASELINE.sleepDuration - 1) then signals + 1 else signals in
  let signals :=
    if num_gt (breathingRate metric) (BASELINE.breathingRate + 2) then signals + 1 else signals in
  let crossSignal := min 20 (signals * 5) in
  let manual := 0 in
  let manual := if num_gt (systolicBP metric) 130 then manual + 5 else manual in
  let manual := if num_gt (bloodSugar metric) 110 then manual + 5 else manual in
  let manual := if (0 <? List.length (symptoms metric))%nat then manual + 5 else manual in
  let manual := min 15 manual in
  let totalScore := round (severity + persistence + crossSignal + manual) in
  let status := Stable in
  let status := if num_gt totalScore 30 then Mild else status in
  let status := if num_gt totalScore 50 then Moderate else status in
  let status := if num_gt totalScore 70 then High else status in
  {| currentScore := totalScore;
     breakdown := {| severity := severity; persistence := persistence;
                     crossSignal := crossSignal; manualModifier := manual;
                     total := totalScore |};
     status := status;
     driftDetected := num_gt totalScore 30;
     confidence := 85 + (random * 10);
     stability := max 0 (100 - totalScore);
     trends := [] |}.

(** The samples of the literal scenarios, as doubles. *)
Definition literal_sample (d : Z) (act dia : float) : HealthMetric :=
  {| date := d; heartRate := 100; hrv := 45; sleepDuration := 5.5;
     activityLevel := act; breathingRate := 18; systolicBP := 135;
     diastolicBP := dia; bloodSugar := 120; symptoms := ["Fatigue"%string] |}.

Definition baseline_sample (d : Z) (act : float) : HealthMetric :=
  {| date := d; heartRate := 70; hrv := 65; sleepDuration := 7.5;
     activityLevel := act; breathingRate := 14; systolicBP := 120;
     diastolicBP := 80; bloodSugar := 90; symptoms := [] |}.

Definition boundary50 : HealthMetric :=
  {| date := 20000; heartRate := 101.25; hrv := 65; sleepDuration := 7.5;
     activityLevel := 8000; breathingRate := 18; systolicBP := 135;
     diastolicBP := 80; bloodSugar := 120; symptoms := ["Fatigue"%string] |}.

(** Every deviation, signal and modifier at its largest. *)
Definition saturated : HealthMetric :=
  {| date := 20000; heartRate := 160; hrv := 20; sleepDuration := 4;
     activityLevel := 5000; breathingRate := 18; systolicBP := 135;
     diastolicBP := 85; bloodSugar := 120; symptoms := ["Fatigue"%string] |}.

End B64.

(** ** The Dashboard page (frontend/src/pages/Dashboard.tsx)

    The page keeps React state; [loadSimulationData] is its fallback when
    there is no backend data.  A call of a state setter is the update of
    the field it sets.  A JavaScript exception is a [Throw]. *)

Module Display.

Record DisplayData := {
  date : Z;
  heartRate : number;
  hrv : number;
  sleepDuration : number;
  activityLevel : number
}.

End Display.

Inductive Completion := Normal | Throw (error : string).

Module Dashboard.

(** The pieces of state that [loadSimulationData] sets. *)
Record State := {
  data : list Display.DisplayData;
  analysis : option AnalysisResult;
  isUsingRealData : bool
}.

(** [d => ({ date: d.date, heartRate: d.heartRate, hrv: d.hrv,
    sleepDuration: d.sleepDuration, activityLevel: d.activityLevel })]. *)
Definition toDisplay (d : HealthMetric) : Display.DisplayData :=
  {| Display.date := date d;
     Display.heartRate := heartRate d;
     Display.hrv := hrv d;
     Display.sleepDuration := sleepDuration d;
     Display.activityLevel := activityLevel d |}.

(** [result.trends = simData]. *)
Definition set_trends (result : AnalysisResult) (simData : list HealthMetric)
  : AnalysisResult :=
  {| currentScore := currentScore result; breakdown := breakdown result;
     status := status result; driftDetected := driftDetected result;
     confidence := confidence result; stability := stability result;
     trends := simData |}.

(** [simData[simData.length - 1]] is [undefined] on an empty array, and
    [calculateCareScore(undefined)] throws a TypeError on its first field
    access. *)
Definition loadSimulationData (st : State) : M (State * Completion) :=
  let st := {| data := data st; analysis := analysis st;
               isUsingRealData := false |} in
  simData <- generateSimulationData ;;
  let st := {| data := map toDisplay simData; analysis := analysis st;
               isUsingRealData := isUsingRealData st |} in
  match nth_error simData (List.length simData - 1) with
  | None => ret (st, Throw "TypeError")
  | Some latest =>
      result <- calculateCareScore latest ;;
      let result := set_trends result simData in
      ret ({| data := data st; analysis := Some result;
              isUsingRealData := isUsingRealData st |}, Normal)
  end.

(** What the page renders from [analysis]. *)
Definition scoreColor (analysis : AnalysisResult) : string :=
  if currentScore analysis >? 70 then "text-red-600"
  else if currentScore analysis >? 50 then "text-amber-600"
  else if currentScore analysis >? 30 then "text-blue-600"
  else "text-emerald-600".

Definition statusBadge (analysis : AnalysisResult) : string :=
  match status analysis with
  | High => "bg-red-50 text-red-700 border-red-200"
  | Moderate => "bg-amber-50 text-amber-700 border-amber-200"
  | Mild => "bg-blue-50 text-blue-700 border-blue-200"
  | Stable => "bg-emerald-50 text-emerald-700 border-emerald-200"
  end.

(** "Clinical drift detected". *)
Definition showsDriftDetected (analysis : AnalysisResult) : bool :=
  driftDetected analysis.

(** The "Review Escalation" button. *)
Definition showsEscalation (analysis : AnalysisResult) : bool :=
  currentScore analysis >? 70.

(** The lines of the "Drift Factors" card. *)
Definition showsHighSeverity (analysis : AnalysisResult) : bool :=
  severity (breakdown analysis) >? 20.

Definition showsSustainedTrend (analysis : AnalysisResult) : bool :=
  persistence (breakdown analysis) >? 10.

Definition showsReportedSymptoms (analysis : AnalysisResult) : bool :=
  manualModifier (breakdown analysis) >? 0.

Definition showsNoFactors (analysis : AnalysisResult) : bool :=
  currentScore analysis <? 30.

End Dashboard.

(** *** Vocabulary of the further properties *)

(** A world whose every draw is a value [Math.random()] can return. *)
Definition unit_draws (w : World) : Prop :=
  forall k, 0 <= random_tape w k < 1.


(** [m2] is at least as bad as [m1] on every field the score reads. *)
Definition no_better (m1 m2 : HealthMetric) : Prop :=
  heartRate m1 <= heartRate m2 /\ hrv m2 <= hrv m1 /\
  sleepDuration m2 <= sleepDuration m1 /\
  breathingRate m1 <= breathingRate m2 /\
  systolicBP m1 <= systolicBP m2 /\ bloodSugar m1 <= bloodSugar m2 /\
  (symptoms m1 <> [] -> symptoms m2 <> []).

(** The statuses in increasing order of risk. *)
Definition level (s : Status) : nat :=
  match s with Stable => 0 | Mild => 1 | Moderate => 2 | High => 3 end.

(** 1 for a test that is passed, 0 otherwise. *)
Definition passed (b : bool) : number := if b then 1 else 0.

(** No reading beyond its baseline or threshold, and no symptom. *)
Definition unremarkable (m : HealthMetric) : Prop :=
  heartRate m <= 70 /\ 65 <= hrv m /\ 7.5 <= sleepDuration m /\
  breathingRate m <= 16 /\ systolicBP m <= 130 /\ bloodSugar m <= 110 /\
  symptoms m = [].

(** A sample worse than [boundary50] on every field read. *)
Definition worse50 : HealthMetric :=
  {| date := 20000; heartRate := 120; hrv := 50; sleepDuration := 6;
     activityLevel := 8000; breathingRate := 19; systolicBP := 140;
     diastolicBP := 80; bloodSugar := 125;
     symptoms := ["Fatigue"; "Nausea"]%string |}.

(** A sample better than baseline on every field read. *)
Definition athlete : HealthMetric :=
  {| date := 20000; heartRate := 52; hrv := 90; sleepDuration := 8.5;
     activityLevel := 15000; breathingRate := 12; systolicBP := 110;
     diastolicBP := 70; bloodSugar := 85; symptoms := [] |}.

(** ** The API client (frontend/src/lib/api.ts) and the Manual Entry page

    [localStorage] is a map from keys to strings.  A request of the axios
    instance passes the request interceptor, is answered by the network (a
    function from the request sent to a reply: fulfilled with data of the
    type the caller destructures, or rejected with the status of
    [error.response], if any) and passes the response interceptor.  The
    browser state also keeps the log of the requests sent.  User ids and
    the results of [parseInt] are integers, or NaN; characters are code
    units below 256. *)

Module Auth.

Local Open Scope string_scope.

Record User := {
  id : Z;
  email : string;
  name : string;
  age : option Z;
  gender : option string
}.

(** *** Strings and numbers of JavaScript *)

Inductive jsnum := NaN | Num (z : Z).

(** A string is truthy when it is not empty; [null] is falsy. *)
Definition truthy (v : option string) : bool :=
  match v with Some (String _ _) => true | _ => false end.

(** A number is falsy when it is 0 or NaN; [null] is falsy. *)
Definition falsy_number (v : option jsnum) : bool :=
  match v with Some (Num z) => (z =? 0)%Z | _ => true end.

(** [(n).toString()] for an integer that a number holds exactly (at most
    2^53 in magnitude): its decimal digits, after "-" if it is negative. *)
Definition Number_toString (n : Z) : string :=
  NilZero.string_of_int (Z.to_int n).

(** White space that [parseInt] skips: TAB, LF, VT, FF, CR, SP, NBSP. *)
Definition is_white_space (c : ascii) : bool :=
  match N_of_ascii c with
  | 9%N | 10%N | 11%N | 12%N | 13%N | 32%N | 160%N => true
  | _ => false
  end.

Fixpoint trim_start (s : string) : string :=
  match s with
  | String c s' => if is_white_space c then trim_start s' else s
  | EmptyString => EmptyString
  end.

Definition digit_of (c : ascii) : option Z :=
  let n := Z.of_N (N_of_ascii c) in
  if ((48 <=? n) && (n <=? 57))%Z then Some (n - 48)%Z else None.

(** The value of the longest prefix of decimal digits, after [acc]; [seen]
    tells whether a digit was read. *)
Fixpoint digits (s : string) (acc : Z) (seen : bool) : option Z :=
  match s with
  | String c s' =>
      match digit_of c with
      | Some d => digits s' (10 * acc + d)%Z true
      | None => if seen then Some acc else None
      end
  | EmptyString => if seen then Some acc else None
  end.

(** [parseInt(s, 10)], as the integer that the digits denote (a number
    holds it exactly up to 2^53). *)
Definition parseInt (s : string) : jsnum :=
  let s := trim_start s in
  let '(negative, s) :=
    match s with
    | String "-" s' => (true, s')
    | String "+" s' => (false, s')
    | _ => (false, s)
    end in
  match digits s 0 false with
  | Some n => Num (if negative then - n else n)
  | None => NaN
  end.

(** [s.split(sep)[0]]: what comes before the first [sep]. *)
Fixpoint before (sep : ascii) (s : string) : string :=
  match s with
  | EmptyString => EmptyString
  | String c s' => if Ascii.eqb c sep then EmptyString else String c (before sep s')
  end.

(** [array.join(',')]. *)
Definition join (l : list string) : string := String.concat "," l.

(** *** localStorage and the browser *)

Definition Storage := string -> option string.

Definition getItem (s : Storage) (key : string) : option string := s key.

Definition setItem (s : Storage) (key value : string) : Storage :=
  fun k => if String.eqb k key then Some value else s k.

Definition removeItem (s : Storage) (key : string) : Storage :=
  fun k => if String.eqb k key then None else s k.

Record ManualRecord := {
  time : string;
  bp_systolic : option jsnum;
  bp_diastolic : option jsnum;
  blood_sugar : option jsnum;
  symptoms : string
}.

Record Request := {
  method : string;
  url : string;
  params : list (string * string);
  x_api_key : option string;        (* the X-API-Key header *)
  body : option ManualRecord
}.

Record Browser := {
  localStorage : Storage;
  location : string;                (* window.location.href *)
  requests : list Request           (* the requests sent, oldest first *)
}.

Inductive Reply (D : Type) :=
| Fulfilled (data : D)
| Rejected (status : option Z).     (* error.response?.status *)

Arguments Fulfilled {D} data.
Arguments Rejected {D} status.

Inductive Error :=
| HttpError (status : option Z)     (* the rejection of the request *)
| JsError (message : string).       (* new Error(message) *)

Inductive Outcome (A : Type) :=
| Returned (a : A)
| Thrown (e : Error).

Arguments Returned {A} a.
Arguments Thrown {A} e.

(** *** The axios instance and its interceptors *)

Definition request_interceptor (b : Browser) (config : Request) : Request :=
  match getItem (localStorage b) "pulse_api_key" with
  | Some (String c k) =>
      {| method := method config; url := url config; params := params config;
         x_api_key := Some (String c k); body := body config |}
  | _ => config
  end.

(** Clear auth and redirect to login. *)
Definition clear_auth (s : Storage) : Storage :=
  removeItem (removeItem (removeItem s "pulse_api_key") "pulse_user_id") "pulse_user".

Definition response_rejected (b : Browser) (status : option Z) : Browser :=
  match status with
  | Some 401%Z =>
      {| localStorage := clear_auth (localStorage b); location := "/login";
         requests := requests b |}
  | _ => b
  end.

Definition api_request {D} (net : Request -> Reply D) (config : Request)
    (b : Browser) : Browser * Reply D :=
  let config := request_interceptor b config in
  let b := {| localStorage := localStorage b; location := location b;
              requests := requests b ++ [config] |} in
  match net config with
  | Fulfilled data => (b, Fulfilled data)
  | Rejected status => (response_rejected b status, Rejected status)
  end.

(** *** authService *)

Record Onboard := { user : User; api_key : string }.

Section Services.

(** [JSON.stringify] on a user, and [JSON.parse] ([None]: a SyntaxError). *)
Variable JSON_stringify : User -> string.
Variable JSON_parse : string -> option User.

Definition store_auth (b : Browser) (data : Onboard) : Browser :=
  let ls := setItem (localStorage b) "pulse_api_key" (api_key data) in
  let ls := setItem ls "pulse_user_id" (Number_toString (id (user data))) in
  let ls := setItem ls "pulse_user" (JSON_stringify (user data)) in
  {| localStorage := ls; location := location b; requests := requests b |}.

Definition login (email password : string) (net : Request -> Reply Onboard)
    (b : Browser) : Browser * Outcome (User * string) :=
  let (b, response) :=
    api_request net
      {| method := "POST"; url := "/auth/onboard";
         params := [("email", email); ("name", before "@" email)];
         x_api_key := None; body := None |} b in
  match response with
  | Rejected status => (b, Thrown (HttpError status))
  | Fulfilled data => (store_auth b data, Returned (user data, api_key data))
  end.

Definition signup (email name password : string) (net : Request -> Reply Onboard)
    (b : Browser) : Browser * Outcome (User * string) :=
  let (b, response) :=
    api_request net
      {| method := "POST"; url := "/auth/onboard";
         params := [("email", email); ("name", name)];
         x_api_key := None; body := None |} b in
  match response with
  | Rejected status => (b, Thrown (HttpError status))
  | Fulfilled data => (store_auth b data, Returned (user data, api_key data))
  end.

Definition logout (b : Browser) : Browser :=
  {| localStorage := clear_auth (localStorage b); location := location b;
     requests := requests b |}.

Definition getCurrentUser (b : Browser) : Outcome (option User) :=
  match getItem (localStorage b) "pulse_user" with
  | Some (String c s) =>
      match JSON_parse (String c s) with
      | Some u => Returned (Some u)
      | None => Thrown (JsError "SyntaxError")
      end
  | _ => Returned None
  end.

Definition getUserId (b : Browser) : option jsnum :=
  match getItem (localStorage b) "pulse_user_id" with
  | Some (String c s) => Some (parseInt (String c s))
  | _ => None
  end.

Definition isAuthenticated (b : Browser) : bool :=
  truthy (getItem (localStorage b) "pulse_api_key").

Definition validateSession (net : Request -> Reply bool) (b : Browser)
  : Browser * bool :=
  match getItem (localStorage b) "pulse_api_key" with
  | Some (String c k) =>
      let (b, response) :=
        api_request net
          {| method := "GET"; url := "/auth/validate"; params := [];
             x_api_key := Some (String c k); body := None |} b in
      match response with
      | Fulfilled valid => (b, valid)
      | Rejected _ => (b, false)
      end
  | _ => (b, false)
  end.

(** *** healthService *)

Record ManualData := {
  data_bp_systolic : option jsnum;
  data_bp_diastolic : option jsnum;
  data_blood_sugar : option jsnum;
  data_symptoms : option (list string)
}.

(** [now] is [new Date().toISOString()]. *)
Definition submitManualEntry (data : ManualData) (now : string)
    (net : Request -> Reply unit) (b : Browser)
  : Browser * Outcome (bool * string) :=
  if falsy_number (getUserId b) then (b, Thrown (JsError "Not authenticated"))
  else
    let payload :=
      {| time := now;
         bp_systolic := data_bp_systolic data;
         bp_diastolic := data_bp_diastolic data;
         blood_sugar := data_blood_sugar data;
         symptoms := match data_symptoms data with
                     | Some l => join l
                     | None => ""
                     end |} in
    let (b, response) :=
      api_request net
        {| method := "POST"; url := "/webhook/ingest-and-analyze"; params := [];
           x_api_key := None; body := Some payload |} b in
    match response with
    | Fulfilled _ => (b, Returned (true, "Data logged successfully"))
    | Rejected status => (b, Thrown (HttpError status))
    end.

End Services.

(** *** The Manual Entry page (frontend/src/pages/ManualEntry.tsx) *)

(** [prev.includes(symptom) ? prev.filter(s => s !== symptom)
    : [...prev, symptom]]. *)
Definition toggleSymptom (symptom : string) (prev : list string) : list string :=
  if existsb (String.eqb symptom) prev
  then filter (fun s => negb (String.eqb s symptom)) prev
  else prev ++ [symptom].

(** The data that [handleSubmit] builds from the form: a field is set when
    its text is not empty, the symptoms when there are some. *)
Definition form_data (bpSystolic bpDiastolic bloodSugar : string)
    (symptoms : list string) : ManualData :=
  let field (text : string) :=
    match text with
    | String _ _ => Some (parseInt text)
    | EmptyString => None
    end in
  {| data_bp_systolic := field bpSystolic;
     data_bp_diastolic := field bpDiastolic;
     data_blood_sugar := field bloodSugar;
     data_symptoms := match symptoms with [] => None | _ :: _ => Some symptoms end |}.

(** [Object.keys(data).length]. *)
Definition keys_count (data : ManualData) : nat :=
  let set {A} (f : option A) := match f with Some _ => 1%nat | None => 0%nat end in
  (set (data_bp_systolic data) + set (data_bp_diastolic data)
   + set (data_blood_sugar data) + set (data_symptoms data))%nat.

(** The checks of [handleSubmit] before it calls [submitManualEntry], with
    [userId] as read by the page: the error they throw, or the data. *)
Definition handleSubmit_checks (userId : option jsnum)
    (bpSystolic bpDiastolic bloodSugar : string) (symptoms : list string)
  : Outcome ManualData :=
  if falsy_number userId
  then Thrown (JsError "Please log in to submit health data")
  else
    let data := form_data bpSystolic bpDiastolic bloodSugar symptoms in
    if (keys_count data =? 0)%nat
    then Thrown (JsError "Please enter at least one measurement or symptom")
    else Returned data.

(** The [try] block of [handleSubmit]: the checks, then the request. *)
Definition handleSubmit (userId : option jsnum)
    (bpSystolic bpDiastolic bloodSugar : string) (symptoms : list string)
    (now : string) (net : Request -> Reply unit) (b : Browser)
  : Browser * Outcome unit :=
  match handleSubmit_checks userId bpSystolic bpDiastolic bloodSugar symptoms with
  | Thrown e => (b, Thrown e)
  | Returned data =>
      let (b, result) := submitManualEntry data now net b in
      match result with
      | Returned _ => (b, Returned tt)
      | Thrown e => (b, Thrown e)
      end
  end.

End Auth.

(** *** Vocabulary of the properties of the client *)

(** The number that the digits of [d] denote, read after [acc]. *)
Fixpoint uint_value (d : Decimal.uint) (acc : Z) : Z :=
  match d with
  | Decimal.Nil => acc
  | Decimal.D0 d => uint_value d (10 * acc + 0)
  | Decimal.D1 d => uint_value d (10 * acc + 1)
  | Decimal.D2 d => uint_value d (10 * acc + 2)
  | Decimal.D3 d => uint_value d (10 * acc + 3)
  | Decimal.D4 d => uint_value d (10 * acc + 4)
  | Decimal.D5 d => uint_value d (10 * acc + 5)
  | Decimal.D6 d => uint_value d (10 * acc + 6)
  | Decimal.D7 d => uint_value d (10 * acc + 7)
  | Decimal.D8 d => uint_value d (10 * acc + 8)
  | Decimal.D9 d => uint_value d (10 * acc + 9)
  end%Z.

(** A string that does not begin with a decimal digit. *)
Definition no_digit_ahead (s : string) : Prop :=
  match s with
  | EmptyString => True
  | String c _ => Auth.digit_of c = None
  end.

(** A string of white space only. *)
Fixpoint white (s : string) : Prop :=
  match s with
  | EmptyString => True
  | String c s' => Auth.is_white_space c = true /\ white s'
  end.

(** *** Concrete users, browsers and networks *)

Definition alice : Auth.User :=
  {| Auth.id := 42; Auth.email := "alice@example.com"; Auth.name := "alice";
     Auth.age := Some 30%Z; Auth.gender := None |}.

(** A user whose id is 0. *)
Definition zero : Auth.User :=
  {| Auth.id := 0; Auth.email := "zero@example.com"; Auth.name := "zero";
     Auth.age := None; Auth.gender := None |}.

Definition fresh_browser : Auth.Browser :=
  {| Auth.localStorage := fun _ => None; Auth.location := "/";
     Auth.requests := [] |}.

(** A stand-in for [JSON.stringify] on users. *)
Definition user_text (u : Auth.User) : string :=
  ("{" ++ Auth.Number_toString (Auth.id u) ++ "," ++ Auth.email u ++ "}")%string.

(** A network that accepts every request with the same data. *)
Definition accepts {D} (data : D) : Auth.Request -> Auth.Reply D :=
  fun _ => Auth.Fulfilled data.

(** A network that rejects every request with the same status. *)
Definition rejects {D} (status : option Z) : Auth.Request -> Auth.Reply D :=
  fun _ => Auth.Rejected status.

(** The browser after alice has logged in with the key "k-1". *)
Definition alice_browser : Auth.Browser :=
  Auth.store_auth user_text fresh_browser
    {| Auth.user := alice; Auth.api_key := "k-1" |}.

(** The state of the symptom buttons after a sequence of clicks, from the
    initial state in which none is selected. *)
Definition clicked (clicks : list string) : list string :=
  fold_left (fun prev symptom => Auth.toggleSymptom symptom prev) clicks [].

(** The request of [validateSession] before the interceptor. *)
Definition validate_request (key : string) : Auth.Request :=
  {| Auth.method := "GET"; Auth.url := "/auth/validate"; Auth.params := [];
     Auth.x_api_key := Some key; Auth.body := None |}.

(** The request of [login] and [signup] before the interceptor. *)
Definition onboard_request (email name : string) : Auth.Request :=
  {| Auth.method := "POST"; Auth.url := "/auth/onboard";
     Auth.params := [("email", email); ("name", name)]%string;
     Auth.x_api_key := None; Auth.body := None |}.

(** What a field of the form enters: nothing when it is empty, else
    [parseInt] of its text. *)
Definition entered (text : string) : option Auth.jsnum :=
  match text with
  | EmptyString => None
  | String _ _ => Some (Auth.parseInt text)
  end.

(** ** The auth context (AuthProvider, beside api.ts in frontend/src/lib)

    The provider keeps the user and a loading flag as React state and
    calls [authService] on the browser. *)

Module AuthProvider.

Record State := {
  user : option Auth.User;
  isLoading : bool
}.

(** [useState<User | null>(null)] and [useState(true)]. *)
Definition initial : State := {| user := None; isLoading := true |}.

Section Provider.

Variable JSON_stringify : Auth.User -> string.
Variable JSON_parse : string -> option Auth.User.


Definition login (email password : string)
    (net : Auth.Request -> Auth.Reply Auth.Onboard) (b : Auth.Browser)
    (st : State) : Auth.Browser * State * Auth.Outcome unit :=
  let (b, result) := Auth.login JSON_stringify email password net b in
  match result with
  | Auth.Returned (u, _) =>
      (b, {| user := Some u; isLoading := isLoading st |}, Auth.Returned tt)
  | Auth.Thrown e => (b, st, Auth.Thrown e)
  end.

Definition logout (b : Auth.Browser) (st : State) : Auth.Browser * State :=
  (Auth.logout b, {| user := None; isLoading := isLoading st |}).

(** [isAuthenticated: !!user]. *)
Definition isAuthenticated (st : State) : bool :=
  match user st with Some _ => true | None => false end.

End Provider.

End AuthProvider.

(** ** The doctor's and the caretaker's dashboards
    (frontend/src/pages/DoctorDashboard.tsx and CaretakerDashboard.tsx)

    A care score is a number or [null].  A time is a number of
    milliseconds since the epoch, or NaN for an invalid date. *)

(** [a >= b] on numbers. *)
Definition num_ge (a b : number) : bool :=
  match a ?= b with Lt => false | _ => true end.

Infix ">=?" := num_ge (at level 70, no associativity) : Q_scope.

Module Time.

Import Auth.

Definition sub (a b : jsnum) : jsnum :=
  match a, b with
  | Num x, Num y => Num (x - y)
  | _, _ => NaN
  end.

(** [Math.floor(a / d)] for a positive integer [d]. *)
Definition floor_div (a : jsnum) (d : Z) : jsnum :=
  match a with
  | Num x => Num (x / d)
  | NaN => NaN
  end.

(** [a < n]. *)
Definition lt (a : jsnum) (n : Z) : bool :=
  match a with
  | Num x => (x <? n)%Z
  | NaN => false
  end.

(** The text of a number in a template literal. *)
Definition toString (a : jsnum) : string :=
  match a with
  | Num x => Number_toString x
  | NaN => "NaN"
  end.

End Time.

Module DoctorDashboard.

Local Open Scope string_scope.

(** [!score]. *)
Definition no_score (score : option number) : bool :=
  match score with
  | None => true
  | Some q => Qeq_bool q 0
  end.

Definition getRiskColor (score : option number) : string :=
  match score with
  | None => "text-slate-400"
  | Some q =>
      if no_score score then "text-slate-400"
      else if (q >=? 70)%Q then "text-red-400"
      else if (q >=? 50)%Q then "text-amber-400"
      else if (q >=? 25)%Q then "text-yellow-400"
      else "text-emerald-400"
  end.

Definition getRiskBg (score : option number) : string :=
  match score with
  | None => "bg-slate-700"
  | Some q =>
      if no_score score then "bg-slate-700"
      else if (q >=? 70)%Q then "bg-red-500/20"
      else if (q >=? 50)%Q then "bg-amber-500/20"
      else if (q >=? 25)%Q then "bg-yellow-500/20"
      else "bg-emerald-500/20"
  end.

Section Clock.

(** [new Date(dateStr).getTime()]. *)
Variable Date_parse : string -> Auth.jsnum.

(** [now] is [new Date().getTime()]. *)
Definition formatTimeAgo (dateStr : option string) (now : Z) : string :=
  if negb (Auth.truthy dateStr) then "Never"
  else
    let date := match dateStr with Some s => Date_parse s | None => Auth.NaN end in
    let diff := Time.sub (Auth.Num now) date in
    let hours := Time.floor_div diff (1000 * 60 * 60) in
    if Time.lt hours 1 then "Just now"
    else if Time.lt hours 24 then Time.toString hours ++ "h ago"
    else Time.toString (Time.floor_div hours 24) ++ "d ago".

End Clock.

End DoctorDashboard.

Module CaretakerDashboard.

Local Open Scope string_scope.

Section Clock.

Variable Date_parse : string -> Auth.jsnum.

Definition formatTimeAgo (dateStr : option string) (now : Z) : string :=
  if negb (Auth.truthy dateStr) then "Never updated"
  else
    let date := match dateStr with Some s => Date_parse s | None => Auth.NaN end in
    let diff := Time.sub (Auth.Num now) date in
    let hours := Time.floor_div diff (1000 * 60 * 60) in
    if Time.lt hours 1 then "Just now"
    else if Time.lt hours 24 then Time.toString hours ++ " hours ago"
    else Time.toString (Time.floor_div hours 24) ++ " days ago".

End Clock.

End CaretakerDashboard.

(** The largest time of a date, 100 000 000 days after the epoch. *)
Definition max_time : Z := 8640000000000000.

(** A stand-in for the parser of dates: the text of a number of
    milliseconds. *)
Definition millis (s : string) : Auth.jsnum := Auth.parseInt s.

(** ** The layout of the dashboard pages
    (frontend/src/components/DashboardLayout.tsx)

    Strings of characters below 128, on which [toUpperCase] maps the
    letters a to z to A to Z and nothing else. *)

Module DashboardLayout.

Local Open Scope string_scope.

(** [s.split(sep)] for a separator of one character. *)
Fixpoint split (sep : ascii) (s : string) : list string :=
  match s with
  | EmptyString => [EmptyString]
  | String c s' =>
      if Ascii.eqb c sep then EmptyString :: split sep s'
      else match split sep s' with
           | piece :: pieces => String c piece :: pieces
           | [] => [String c EmptyString]
           end
  end.

(** [n[0]]: [None] is [undefined]. *)
Definition first (n : string) : option ascii :=
  match n with
  | String c _ => Some c
  | EmptyString => None
  end.

(** [array.join('')]: [undefined] is printed as nothing. *)
Fixpoint join (l : list (option ascii)) : string :=
  match l with
  | [] => EmptyString
  | Some c :: l' => String c (join l')
  | None :: l' => join l'
  end.

Definition upper (c : ascii) : ascii :=
  let n := N_of_ascii c in
  if ((97 <=? n) && (n <=? 122))%N then ascii_of_N (n - 32) else c.

Fixpoint toUpperCase (s : string) : string :=
  match s with
  | EmptyString => EmptyString
  | String c s' => String (upper c) (toUpperCase s')
  end.

(** [s.slice(0, 2)]. *)
Definition slice_0_2 (s : string) : string := substring 0 2 s.

(** [user?.name ? ... : 'U']. *)
Definition userInitials (user : option Auth.User) : string :=
  match user with
  | Some u =>
      match Auth.name u with
      | EmptyString => "U"
      | String _ _ =>
          slice_0_2 (toUpperCase (join (map first (split " " (Auth.name u)))))
      end
  | None => "U"
  end.

End DashboardLayout.

(** The words of a name: what stands between its spaces. *)
Definition words (name : string) : list string :=
  filter (fun piece => negb (String.eqb piece "")) (DashboardLayout.split " " name).

(** The capital first letter of a word. *)
Definition initial (word : string) : string :=
  match word with
  | String c _ => String (DashboardLayout.upper c) EmptyString
  | EmptyString => EmptyString
  end.

(** A string without spaces. *)
Fixpoint spaceless (s : string) : Prop :=
  match s with
  | EmptyString => True
  | String c s' => c <> " "%char /\ spaceless s'
  end.

(** A string of characters below 128. *)
Fixpoint ascii_only (s : string) : Prop :=
  match s with
  | EmptyString => True
  | String c s' => (N_of_ascii c < 128)%N /\ ascii_only s'
  end.

(** A string without the letters a to z. *)
Fixpoint no_lower_case (s : string) : Prop :=
  match s with
  | EmptyString => True
  | String c s' => ~ (97 <= N_of_ascii c <= 122)%N /\ no_lower_case s'
  end.

Definition ada : Auth.User :=
  {| Auth.id := 7; Auth.email := "ada@example.com";
     Auth.name := " ada  king lovelace"; Auth.age := None; Auth.gender := None |}.

(** * Properties *)

(** ** Comparisons, caps and rounding *)

Lemma num_gt_true (a b : number) : num_gt a b = true <-> b < a.
Proof.
  unfold num_gt. rewrite Qlt_alt, <- (Qcompare_antisym a b).
  destruct (a ?= b); simpl; split; congruence.
Qed.

Lemma num_gt_false (a b : number) : num_gt a b = false <-> a <= b.
Proof.
  unfold num_gt. rewrite Qle_alt.
  destruct (a ?= b); simpl; split; congruence.
Qed.

Lemma num_gt_compat (a a' b : number) : a == a' -> num_gt a b = num_gt a' b.
Proof. intros H. unfold num_gt. now rewrite H. Qed.

Lemma num_lt_compat (a a' b : number) : a == a' -> num_lt a b = num_lt a' b.
Proof. intros H. unfold num_lt. now rewrite H. Qed.

Lemma round_compat (x y : number) : x == y -> Math.round x = Math.round y.
Proof. intros H. unfold Math.round. now rewrite H. Qed.

Lemma min_cap (c x : number) : 0 <= c -> 0 <= x -> 0 <= Math.min c x <= c.
Proof.
  intros Hc Hx. unfold Math.min.
  split; [apply Q.min_glb; assumption | apply Q.le_min_l].
Qed.

Lemma min_not_binding (c x : number) : x < c -> Math.min c x = x.
Proof.
  intros H. unfold Math.min, Qmin, GenericMinMax.gmin.
  destruct (c ?= x) eqn:E; [| |reflexivity].
  - apply Qeq_alt in E. lra.
  - apply Qlt_alt in E. lra.
Qed.



Lemma round_mono (x y : number) : x <= y -> Math.round x <= Math.round y.
Proof.
  intros H. unfold Math.round. rewrite <- Zle_Qle.
  apply Qfloor_resp_le. lra.
Qed.

Lemma round_integer (z : Z) : Math.round (inject_Z z) = inject_Z z.
Proof.
  unfold Math.round. f_equal.
  apply Z.le_antisymm.
  - apply Z.lt_succ_r. rewrite Zlt_Qlt.
    apply Qle_lt_trans with (inject_Z z + 0.5); [apply Qfloor_le|].
    unfold Z.succ. rewrite inject_Z_plus. change (inject_Z 1) with 1. lra.
  - rewrite <- (Qfloor_Z z) at 1. apply Qfloor_resp_le. lra.
Qed.

(** ** The generator's loop *)

Lemma world_eq (w w' : World) :
  random_tape w = random_tape w' -> clock_tape w = clock_tape w' ->
  random_calls w = random_calls w' -> clock_calls w = clock_calls w' ->
  w = w'.
Proof. destruct w, w'; simpl; intros; subst; reflexivity. Qed.

Lemma skip_0 (w : World) : skip w 0 = w.
Proof. apply world_eq; simpl; trivial; lia. Qed.

Lemma skip_skip (w : World) (j k : nat) : skip (skip w j) k = skip w (j + k).
Proof. apply world_eq; simpl; trivial; lia. Qed.

Lemma sample_world (i : nat) (w : World) : snd (sample i w) = skip w 1.
Proof. destruct w. apply world_eq; simpl; trivial; lia. Qed.

Lemma for_loop_push (n i : nat) (data : list HealthMetric) (w : World) :
  for_loop n i (fun i data => x <- sample i ;; ret (data ++ [x])) data w
  = (data ++ map (fun k => run (sample k) (skip w (k - i))) (seq i n), skip w n).
Proof.
  revert i data w. induction n as [|n IH]; intros i data w.
  - simpl. unfold ret. now rewrite app_nil_r, skip_0.
  - cbn [for_loop]. unfold bind at 1.
    unfold bind at 1. unfold ret at 1.
    destruct (sample i w) as [x w1] eqn:E.
    rewrite IH.
    assert (Hw : w1 = skip w 1) by (rewrite <- sample_world with (i := i), E; reflexivity).
    subst w1. rewrite skip_skip. replace (1 + n)%nat with (S n) by lia.
    f_equal. rewrite <- app_assoc. f_equal. cbn [seq map app].
    f_equal.
    + replace (i - i)%nat with 0%nat by lia. rewrite skip_0. unfold run. now rewrite E.
    + replace (i + 1)%nat with (S i) by lia.
      apply map_ext_in. intros k Hk. apply in_seq in Hk.
      rewrite skip_skip. do 2 f_equal. lia.
Qed.

Lemma generateSimulationData_eq (w : World) :
  generateSimulationData w = (map (pushed w) (seq 0 days), skip w days).
Proof.
  unfold generateSimulationData, for_range.
  rewrite for_loop_push. reflexivity.
Qed.

Lemma series_eq (w : World) :
  run generateSimulationData w = map (pushed w) (seq 0 days).
Proof. unfold run. now rewrite generateSimulationData_eq. Qed.


Lemma pushed_symptoms (w : World) (i : nat) :
  symptoms (pushed w i)
  = if (45 <? i)%nat then ["Fatigue"; "Mild Dizziness"]%string else [].
Proof. destruct w. reflexivity. Qed.

Lemma pushed_metrics (w : World) (i : nat) :
  heartRate (pushed w i) = BASELINE.heartRate + driftFactor i * 15 + (draw w i 0 - 0.5) * 5 /\
  hrv (pushed w i) = BASELINE.hrv - driftFactor i * 20 + (draw w i 1 - 0.5) * 10 /\
  sleepDuration (pushed w i)
    = Math.max 4 (BASELINE.sleepDuration - driftFactor i * 2 + (draw w i 2 - 0.5) * 1) /\
  activityLevel (pushed w i) = 8000 - driftFactor i * 3000 + (draw w i 3 - 0.5) * 2000 /\
  breathingRate (pushed w i) = BASELINE.breathingRate + driftFactor i * 4 + (draw w i 4 - 0.5) * 2 /\
  systolicBP (pushed w i) = BASELINE.systolicBP + driftFactor i * 10 + (draw w i 5 - 0.5) * 5 /\
  diastolicBP (pushed w i) = BASELINE.diastolicBP + driftFactor i * 5 + (draw w i 6 - 0.5) * 5 /\
  bloodSugar (pushed w i) = BASELINE.bloodSugar + driftFactor i * 15 + (draw w i 7 - 0.5) * 10.
Proof.
  destruct w as [rt ct r c].
  unfold draw, pushed, run, sample, noise, bind, Math_random, new_Date, ret, skip.
  cbn [fst snd random_tape random_calls clock_tape clock_calls
       heartRate hrv sleepDuration activityLevel breathingRate systolicBP
       diastolicBP bloodSugar].
  repeat split;
    match goal with
    | |- ?L = ?R =>
        match L with context [rt ?a] =>
          match R with context [rt ?b] =>
            replace a with b by lia; reflexivity
          end
        end
    end.
Qed.

Lemma driftFactor_early (i : nat) : (i <= 30)%nat -> driftFactor i = 0.
Proof.
  intros H. unfold driftFactor.
  destruct (Nat.ltb_spec 30 i); [lia | reflexivity].
Qed.

Lemma driftFactor_late (i : nat) :
  (30 <= i)%nat -> driftFactor i == (of_nat i - 30) / 30.
Proof.
  intros H. unfold driftFactor.
  destruct (Nat.ltb_spec 30 i) as [H1|H1]; [reflexivity|].
  assert (i = 30)%nat by lia. subst i. reflexivity.
Qed.

Lemma pushed_at_baseline (w : World) (i : nat) :
  (i <= 30)%nat ->
  (forall j, (j < 8)%nat -> draw w i j == 0.5) ->
  at_baseline (pushed w i).
Proof.
  intros Hi Hn.
  destruct (pushed_metrics w i) as (E1 & E2 & E3 & E4 & E5 & E6 & E7 & E8).
  unfold at_baseline.
  rewrite E1, E2, E3, E4, E5, E6, E7, E8, (driftFactor_early i Hi).
  unfold BASELINE.heartRate, BASELINE.hrv, BASELINE.sleepDuration,
    BASELINE.breathingRate, BASELINE.systolicBP, BASELINE.diastolicBP,
    BASELINE.bloodSugar, Math.max.
  pose proof (Hn 0%nat ltac:(lia)). pose proof (Hn 1%nat ltac:(lia)).
  pose proof (Hn 2%nat ltac:(lia)). pose proof (Hn 3%nat ltac:(lia)).
  pose proof (Hn 4%nat ltac:(lia)). pose proof (Hn 5%nat ltac:(lia)).
  pose proof (Hn 6%nat ltac:(lia)). pose proof (Hn 7%nat ltac:(lia)).
  repeat split; try lra.
  rewrite Q.max_r; lra.
Qed.






(** ** The generated series *)



(** C8: in every generated series the sample at day index [i] has no
    symptoms when [i <= 45] and the two symptoms "Fatigue", "Mild Dizziness"
    when [i > 45]: the first 46 samples carry none and exactly the last 14
    carry the pair. *)
Theorem generateSimulationData_symptoms (w : World) :
  let series := run generateSimulationData w in
  map symptoms series
  = map (fun i => if (i <=? 45)%nat then []
                  else ["Fatigue"; "Mild Dizziness"]%string) (seq 0 60) /\
  map symptoms series
  = repeat [] 46 ++ repeat ["Fatigue"; "Mild Dizziness"]%string 14 /\
  map has_symptoms series = repeat false 46 ++ repeat true 14 /\
  List.length (filter has_symptoms series) = 14%nat.
Proof.
  cbv zeta. rewrite series_eq.
  assert (E : map symptoms (map (pushed w) (seq 0 days))
              = map (fun i => if (i <=? 45)%nat then []
                     else ["Fatigue"; "Mild Dizziness"]%string) (seq 0 60)).
  { rewrite map_map. apply map_ext. intros i. rewrite pushed_symptoms.
    destruct (Nat.ltb_spec 45 i), (Nat.leb_spec i 45); try lia; reflexivity. }
  split; [exact E|].
  split; [rewrite E; reflexivity|].
  split; [reflexivity|reflexivity].
Qed.

(** C7: the drift factor of day index [i] is 0 when [i <= 30] and
    [(i - 30) / 30] otherwise: from day 30 on it grows by 1/30 a day, a
    linear ramp that starts at 0 and stays below 1 inside the window (1 is
    its value at index 60).  Consequently, when every noise term is zero
    (each random draw is 0.5), every sample with [i <= 30] has each metric
    equal to its baseline value. *)
Theorem driftFactor_ramp :
  (forall i, driftFactor i
             == if (i <=? 30)%nat then 0 else (of_nat i - 30) / 30) /\
  (forall i, (30 <= i)%nat -> driftFactor (S i) - driftFactor i == 1 / 30) /\
  (forall i, (i < 60)%nat -> 0 <= driftFactor i < 1) /\
  driftFactor 30 == 0 /\ driftFactor 60 == 1 /\
  forall w : World,
    (forall k, (k < 480)%nat -> random_tape w (random_calls w + k) == 0.5) ->
    List.length (firstn 31 (run generateSimulationData w)) = 31%nat /\
    Forall at_baseline (firstn 31 (run generateSimulationData w)).
Proof.
  assert (F : forall i, (30 <= i)%nat -> driftFactor i == (of_nat i - 30) / 30)
    by apply driftFactor_late.
  assert (N : forall i, of_nat (S i) == of_nat i + 1).
  { intros i. unfold of_nat. rewrite Nat2Z.inj_succ. unfold Z.succ.
    rewrite inject_Z_plus. reflexivity. }
  split; [|split; [|split; [|split; [|split]]]].
  - intros i. destruct (Nat.leb_spec i 30) as [H|H].
    + now rewrite driftFactor_early.
    + apply F. lia.
  - intros i Hi. rewrite (F (S i)), (F i), N by lia. field.
  - intros i Hi. destruct (Nat.le_gt_cases i 30) as [H|H].
    + rewrite driftFactor_early by assumption. lra.
    + rewrite F by lia.
      assert (30 < of_nat i < 60) as [H1 H2].
      { unfold of_nat. change 30 with (inject_Z 30). change 60 with (inject_Z 60).
        rewrite <- !Zlt_Qlt. lia. }
      split.
      * apply Qle_shift_div_l; lra.
      * apply Qlt_shift_div_r; lra.
  - reflexivity.
  - reflexivity.
  - intros w Hw. rewrite series_eq, firstn_map.
    change (firstn 31 (seq 0 days)) with (seq 0 31).
    split; [now rewrite length_map, length_seq|].
    apply Forall_map, Forall_forall. intros i Hi. apply in_seq in Hi.
    apply pushed_at_baseline; [lia|].
    intros j Hj. unfold draw. apply Hw. lia.
Qed.

Lemma driftFactor_ramp_witness :
  (forall k, (k < 480)%nat ->
             random_tape world0 (random_calls world0 + k) == 0.5) /\
  Forall at_baseline (firstn 31 (run generateSimulationData world0)).
Proof.
  assert (H : forall k, (k < 480)%nat ->
                        random_tape world0 (random_calls world0 + k) == 0.5)
    by (intros; reflexivity).
  split; [exact H|].
  destruct driftFactor_ramp as (_ & _ & _ & _ & _ & G).
  exact (proj2 (G world0 H)).
Defined.

(** ** The score *)

(** The result of [calculateCareScore], field by field. *)
Lemma calculateCareScore_eq (metric : HealthMetric) (w : World) :
  run (calculateCareScore metric) w
  = {| currentScore := totalScore_of metric;
       breakdown := {| severity := severity_of metric;
                       persistence := persistence_of metric;
                       crossSignal := crossSignal_of metric;
                       manualModifier := manual_of metric;
                       total := totalScore_of metric |};
       status := classify (totalScore_of metric);
       driftDetected := num_gt (totalScore_of metric) 30;
       confidence := 85 + (random_tape w (random_calls w) * 10);
       stability := Math.max 0 (100 - totalScore_of metric);
       trends := [] |}.
Proof.
  destruct w.
  cbv beta iota zeta delta
    [run calculateCareScore bind ret Math_random fst totalScore_of severity_of
     persistence_of crossSignal_of signals_of manual_of classify
     random_tape random_calls].
  reflexivity.
Qed.

Ltac score_fields :=
  cbv zeta; rewrite ?calculateCareScore_eq;
  cbn [currentScore breakdown severity persistence crossSignal manualModifier
       total status driftDetected stability trends].

Lemma severity_bounds (metric : HealthMetric) : 0 <= severity_of metric <= 40.
Proof.
  unfold severity_of. cbv zeta. apply min_cap; [lra|].
  unfold Math.max.
  pose proof (Q.le_max_l 0 ((heartRate metric - BASELINE.heartRate) / 10)) as H1.
  pose proof (Q.le_max_l 0 ((BASELINE.hrv - hrv metric) / 10)) as H2.
  pose proof (Q.le_max_l 0 (BASELINE.sleepDuration - sleepDuration metric)) as H3.
  revert H1 H2 H3.
  generalize (Qmax 0 ((heartRate metric - BASELINE.heartRate) / 10))
    (Qmax 0 ((BASELINE.hrv - hrv metric) / 10))
    (Qmax 0 (BASELINE.sleepDuration - sleepDuration metric)).
  intros a b c Ha Hb Hc. lra.
Qed.

Lemma persistence_exact (metric : HealthMetric) :
  persistence_of metric = severity_of metric * 0.6.
Proof.
  unfold persistence_of. apply min_not_binding.
  pose proof (severity_bounds metric) as H. revert H.
  generalize (severity_of metric). intros s H. lra.
Qed.


Lemma signals_bounds (metric : HealthMetric) : 0 <= signals_of metric <= 4.
Proof.
  unfold signals_of. cbv zeta.
  destruct (num_gt (heartRate metric) _), (num_lt (hrv metric) _),
    (num_lt (sleepDuration metric) _), (num_gt (breathingRate metric) _); lra.
Qed.

Lemma crossSignal_bounds (metric : HealthMetric) : 0 <= crossSignal_of metric <= 20.
Proof.
  unfold crossSignal_of. apply min_cap; [lra|].
  pose proof (signals_bounds metric) as H. revert H.
  generalize (signals_of metric). intros s H. lra.
Qed.

Lemma manual_bounds (metric : HealthMetric) : 0 <= manual_of metric <= 15.
Proof.
  unfold manual_of. cbv zeta. apply min_cap; [lra|].
  destruct (num_gt (systolicBP metric) _), (num_gt (bloodSugar metric) _),
    (0 <? List.length (symptoms metric))%nat; lra.
Qed.




Lemma totalScore_eq (m1 m2 : HealthMetric) :
  totalScore_of m1 == totalScore_of m2 -> totalScore_of m1 = totalScore_of m2.
Proof.
  unfold totalScore_of, Math.round. intros H.
  f_equal. exact (proj1 (inject_Z_injective _ _) H).
Qed.

Lemma classify_spec (t : number) :
  (classify t = Stable <-> t <= 30) /\
  (classify t = Mild <-> 30 < t <= 50) /\
  (classify t = Moderate <-> 50 < t <= 70) /\
  (classify t = High <-> 70 < t).
Proof.
  unfold classify. cbv zeta.
  destruct (num_gt t 30) eqn:E30, (num_gt t 50) eqn:E50, (num_gt t 70) eqn:E70;
    try apply num_gt_true in E30; try apply num_gt_false in E30;
    try apply num_gt_true in E50; try apply num_gt_false in E50;
    try apply num_gt_true in E70; try apply num_gt_false in E70;
    repeat split; intros; try discriminate; try lra.
Qed.

(** *** Agreement on the fields that are read *)

Lemma severity_agree (m1 m2 : HealthMetric) :
  agree_on_read m1 m2 -> severity_of m1 == severity_of m2.
Proof.
  intros (H1 & H2 & H3 & _). unfold severity_of, Math.max, Math.min. cbv zeta.
  now rewrite H1, H2, H3.
Qed.

Lemma persistence_agree (m1 m2 : HealthMetric) :
  agree_on_read m1 m2 -> persistence_of m1 == persistence_of m2.
Proof.
  intros H. rewrite !persistence_exact. now rewrite (severity_agree m1 m2 H).
Qed.

Lemma signals_agree (m1 m2 : HealthMetric) :
  agree_on_read m1 m2 -> signals_of m1 = signals_of m2.
Proof.
  intros (H1 & H2 & H3 & H4 & _). unfold signals_of.
  now rewrite (num_gt_compat _ _ _ H1), (num_lt_compat _ _ _ H2),
    (num_lt_compat _ _ _ H3), (num_gt_compat _ _ _ H4).
Qed.

Lemma crossSignal_agree (m1 m2 : HealthMetric) :
  agree_on_read m1 m2 -> crossSignal_of m1 = crossSignal_of m2.
Proof. intros H. unfold crossSignal_of. now rewrite (signals_agree m1 m2 H). Qed.

Lemma manual_agree (m1 m2 : HealthMetric) :
  agree_on_read m1 m2 -> manual_of m1 = manual_of m2.
Proof.
  intros (_ & _ & _ & _ & H5 & H6 & H7). unfold manual_of.
  now rewrite (num_gt_compat _ _ _ H5), (num_gt_compat _ _ _ H6), H7.
Qed.

Lemma totalScore_agree (m1 m2 : HealthMetric) :
  agree_on_read m1 m2 -> totalScore_of m1 = totalScore_of m2.
Proof.
  intros H. unfold totalScore_of. apply round_compat.
  rewrite (crossSignal_agree m1 m2 H), (manual_agree m1 m2 H).
  pose proof (severity_agree m1 m2 H) as E1.
  pose proof (persistence_agree m1 m2 H) as E2.
  revert E1 E2.
  generalize (severity_of m1) (severity_of m2) (persistence_of m1)
    (persistence_of m2) (crossSignal_of m2) (manual_of m2).
  intros s1 s2 p1 p2 c m E1 E2. now rewrite E1, E2.
Qed.

(** *** Replays in binary64 arithmetic *)

Lemma binary64_literal (d : Z) (act dia random : float) :
  let r := B64.calculateCareScore (B64.literal_sample d act dia) random in
  B64.breakdown r
  = {| B64.severity := 35; B64.persistence := 21; B64.crossSignal := 20;
       B64.manualModifier := 15; B64.total := 91 |}%float /\
  B64.currentScore r = 91%float /\ B64.status r = High /\
  B64.driftDetected r = true.
Proof. vm_compute. repeat split. Qed.

Lemma binary64_baseline (d : Z) (act random : float) :
  let r := B64.calculateCareScore (B64.baseline_sample d act) random in
  B64.breakdown r
  = {| B64.severity := 0; B64.persistence := 0; B64.crossSignal := 0;
       B64.manualModifier := 0; B64.total := 0 |}%float /\
  B64.currentScore r = 0%float /\ B64.status r = Stable /\
  B64.driftDetected r = false.
Proof. vm_compute. repeat split. Qed.

Lemma binary64_boundary50 (random : float) :
  let r := B64.calculateCareScore B64.boundary50 random in
  B64.total (B64.breakdown r) = 50%float /\ B64.status r = Mild /\
  B64.driftDetected r = true.
Proof. vm_compute. repeat split. Qed.

Lemma binary64_saturated (random : float) :
  let r := B64.calculateCareScore B64.saturated random in
  B64.breakdown r
  = {| B64.severity := 40; B64.persistence := 24; B64.crossSignal := 20;
       B64.manualModifier := 15; B64.total := 99 |}%float /\
  B64.status r = High /\ B64.stability r = 1%float.
Proof. vm_compute. repeat split. Qed.

(** *** The literal scenarios *)

(** C1: for the sample heartRate=100, hrv=45, sleepDuration=5.5,
    breathingRate=18, systolicBP=135, bloodSugar=120, symptoms=["Fatigue"],
    whatever its other fields, [calculateCareScore] returns the breakdown
    severity=35, persistence=21, crossSignal=20, manualModifier=15,
    total=91, the status High and driftDetected=true; in exact arithmetic
    and in binary64 arithmetic alike. *)
Theorem calculateCareScore_literal
  (d : Z) (act dia : number) (w : World) (act' dia' random : float) :
  let r := run (calculateCareScore (literal_sample d act dia)) w in
  let r' := B64.calculateCareScore (B64.literal_sample d act' dia') random in
  (severity (breakdown r) == 35 /\
   persistence (breakdown r) == 21 /\
   crossSignal (breakdown r) == 20 /\
   manualModifier (breakdown r) == 15 /\
   total (breakdown r) = 91 /\
   currentScore r = 91 /\
   status r = High /\
   driftDetected r = true) /\
  (B64.breakdown r'
   = {| B64.severity := 35; B64.persistence := 21; B64.crossSignal := 20;
        B64.manualModifier := 15; B64.total := 91 |}%float /\
   B64.currentScore r' = 91%float /\
   B64.status r' = High /\
   B64.driftDetected r' = true).
Proof.
  split.
  - score_fields. repeat split; vm_compute; reflexivity.
  - apply binary64_literal.
Qed.

(** C4: for the sample exactly at the fixed baseline (heartRate=70, hrv=65,
    sleepDuration=7.5, breathingRate=14, systolicBP=120, diastolicBP=80,
    bloodSugar=90, no symptoms) [calculateCareScore] returns severity=0,
    persistence=0, crossSignal=0, manualModifier=0, total=0, the status
    Stable and driftDetected=false; in exact arithmetic and in binary64
    arithmetic alike. *)
Theorem calculateCareScore_baseline
  (d : Z) (act : number) (w : World) (act' random : float) :
  let r := run (calculateCareScore (baseline_sample d act)) w in
  let r' := B64.calculateCareScore (B64.baseline_sample d act') random in
  (severity (breakdown r) == 0 /\
   persistence (breakdown r) == 0 /\
   crossSignal (breakdown r) == 0 /\
   manualModifier (breakdown r) == 0 /\
   total (breakdown r) = 0 /\
   currentScore r = 0 /\
   status r = Stable /\
   driftDetected r = false) /\
  (B64.breakdown r'
   = {| B64.severity := 0; B64.persistence := 0; B64.crossSignal := 0;
        B64.manualModifier := 0; B64.total := 0 |}%float /\
   B64.currentScore r' = 0%float /\
   B64.status r' = Stable /\
   B64.driftDetected r' = false).
Proof.
  split.
  - score_fields. repeat split; vm_compute; reflexivity.
  - apply binary64_baseline.
Qed.

(** *** Bounds *)



(** The bounds of C9 are attained: the saturated sample has persistence 24,
    total 99 and stability 1. *)
Lemma saturated_attains (w : World) :
  let r := run (calculateCareScore saturated) w in
  severity (breakdown r) == 40 /\ persistence (breakdown r) == 24 /\
  total (breakdown r) = 99 /\ stability r == 1.
Proof. score_fields. repeat split; vm_compute; reflexivity. Qed.

(** *** Status, drift flag and stability *)

(** C3: the status is decided by the total alone, through ordered
    thresholds of which the highest one passed stands: Stable exactly when
    [total <= 30], Mild when [30 < total <= 50], Moderate when
    [50 < total <= 70], High when [total > 70].  A sample whose total is
    exactly 50 is Mild, and two samples with the same total have the same
    status. *)
Theorem calculateCareScore_status (metric : HealthMetric) (w : World) :
  let r := run (calculateCareScore metric) w in
  let t := total (breakdown r) in
  (status r = Stable <-> t <= 30) /\
  (status r = Mild <-> 30 < t <= 50) /\
  (status r = Moderate <-> 50 < t <= 70) /\
  (status r = High <-> 70 < t) /\
  (t == 50 -> status r = Mild) /\
  (forall (metric' : HealthMetric) (w' : World),
      let r' := run (calculateCareScore metric') w' in
      total (breakdown r') == t -> status r' = status r).
Proof.
  score_fields.
  destruct (classify_spec (totalScore_of metric)) as (H1 & H2 & H3 & H4).
  split; [exact H1|]. split; [exact H2|]. split; [exact H3|]. split; [exact H4|].
  split.
  - intros E. apply H2. revert E. generalize (totalScore_of metric).
    intros t E. lra.
  - intros metric' w' E. rewrite calculateCareScore_eq in E |- *.
    cbn [breakdown total status] in E |- *.
    apply totalScore_eq in E. now rewrite E.
Qed.

Lemma calculateCareScore_status_witness :
  total (breakdown (run (calculateCareScore boundary50) world0)) == 50 /\
  status (run (calculateCareScore boundary50) world0) = Mild.
Proof.
  assert (H : total (breakdown (run (calculateCareScore boundary50) world0)) == 50)
    by (vm_compute; reflexivity).
  split; [exact H|].
  destruct (calculateCareScore_status boundary50 world0) as (_ & _ & _ & _ & G & _).
  exact (G H).
Defined.

(** C5: for every sample [driftDetected] is [total > 30] and [stability]
    is [max(0, 100 - total)]; both depend on the total alone: two samples
    with the same total have the same flag and the same stability. *)
Theorem calculateCareScore_drift_stability (metric : HealthMetric) (w : World) :
  let r := run (calculateCareScore metric) w in
  let t := total (breakdown r) in
  driftDetected r = num_gt t 30 /\
  (driftDetected r = true <-> 30 < t) /\
  stability r = Math.max 0 (100 - t) /\
  (forall (metric' : HealthMetric) (w' : World),
      let r' := run (calculateCareScore metric') w' in
      total (breakdown r') == t ->
      driftDetected r' = driftDetected r /\ stability r' = stability r).
Proof.
  score_fields.
  split; [reflexivity|].
  split; [apply num_gt_true|].
  split; [reflexivity|].
  intros metric' w' E. rewrite calculateCareScore_eq in E |- *.
  cbn [breakdown total driftDetected stability] in E |- *.
  apply totalScore_eq in E. rewrite E. split; reflexivity.
Qed.

Lemma calculateCareScore_drift_stability_witness :
  total (breakdown (run (calculateCareScore sample91') world1))
  == total (breakdown (run (calculateCareScore sample91) world0)) /\
  driftDetected (run (calculateCareScore sample91') world1)
  = driftDetected (run (calculateCareScore sample91) world0) /\
  stability (run (calculateCareScore sample91') world1)
  = stability (run (calculateCareScore sample91) world0).
Proof.
  assert (H : total (breakdown (run (calculateCareScore sample91') world1))
              == total (breakdown (run (calculateCareScore sample91) world0)))
    by (vm_compute; reflexivity).
  split; [exact H|].
  destruct (calculateCareScore_drift_stability sample91 world0) as (_ & _ & _ & G).
  exact (G sample91' world1 H).
Defined.

(** *** Fields that are not read *)

(** C10: [calculateCareScore] does not read [diastolicBP], [activityLevel]
    or [date]: for two samples that agree on all other fields, run in any
    two worlds, the results agree on every field but the random
    [confidence]: currentScore, breakdown, status, driftDetected and
    stability are the same. *)
Theorem calculateCareScore_ignores_unread (m1 m2 : HealthMetric) (w1 w2 : World) :
  agree_on_read m1 m2 ->
  same_but_confidence (run (calculateCareScore m1) w1)
                      (run (calculateCareScore m2) w2).
Proof.
  intros H. unfold same_but_confidence. score_fields.
  rewrite (totalScore_agree m1 m2 H), (crossSignal_agree m1 m2 H),
    (manual_agree m1 m2 H).
  pose proof (severity_agree m1 m2 H). pose proof (persistence_agree m1 m2 H).
  repeat split; trivial; reflexivity.
Qed.

Lemma calculateCareScore_ignores_unread_witness :
  agree_on_read sample91 sample91_other /\
  same_but_confidence (run (calculateCareScore sample91) world0)
                      (run (calculateCareScore sample91_other) world1) /\
  ~ confidence (run (calculateCareScore sample91) world0)
    == confidence (run (calculateCareScore sample91_other) world1).
Proof.
  assert (H : agree_on_read sample91 sample91_other)
    by (vm_compute; repeat split; reflexivity).
  split; [exact H|].
  split; [exact (calculateCareScore_ignores_unread sample91 sample91_other world0 world1 H)|].
  vm_compute. discriminate.
Defined.

(** * Further properties of the engine *)

(** ** Ranges of the generated metrics *)

Lemma Forall2_seq_map {A} (P : nat -> A -> Prop) (f : nat -> A) (n start : nat) :
  (forall i, (start <= i < start + n)%nat -> P i (f i)) ->
  Forall2 P (seq start n) (map f (seq start n)).
Proof.
  revert start. induction n as [|n IH]; intros start H; simpl; constructor.
  - apply H. lia.
  - apply IH. intros i Hi. apply H. lia.
Qed.

Lemma driftFactor_range (i : nat) :
  (i < 60)%nat -> 0 <= driftFactor i <= 29 / 30.
Proof.
  intros Hi. destruct (Nat.le_gt_cases i 30) as [H|H].
  - rewrite driftFactor_early by assumption. split; discriminate.
  - rewrite driftFactor_late by lia.
    assert (30 < of_nat i <= 59) as [H1 H2].
    { unfold of_nat. change 30 with (inject_Z 30). change 59 with (inject_Z 59).
      rewrite <- Zlt_Qlt, <- Zle_Qle. lia. }
    revert H1 H2. generalize (of_nat i). intros q H1 H2.
    unfold Qdiv. change (/ 30) with (1 # 30). lra.
Qed.

Lemma driftFactor_mono (i j : nat) :
  (i <= j)%nat -> driftFactor i <= driftFactor j.
Proof.
  intros Hij. destruct (Nat.le_gt_cases j 30) as [Hj|Hj].
  - rewrite !driftFactor_early by lia. apply Qle_refl.
  - destruct (Nat.le_gt_cases i 30) as [Hi|Hi].
    + rewrite (driftFactor_early i Hi), driftFactor_late by lia.
      assert (H : 30 < of_nat j).
      { unfold of_nat. change 30 with (inject_Z 30). rewrite <- Zlt_Qlt. lia. }
      revert H. generalize (of_nat j). intros q H.
      unfold Qdiv. change (/ 30) with (1 # 30). lra.
    + rewrite !driftFactor_late by lia.
      assert (H : of_nat i <= of_nat j).
      { unfold of_nat. rewrite <- Zle_Qle. lia. }
      revert H. generalize (of_nat i) (of_nat j). intros p q H.
      unfold Qdiv. change (/ 30) with (1 # 30). lra.
Qed.

(** The sleep formula before its floor at 4, for draw [r]. *)
Lemma sleep_floor_idle (f r : number) :
  0 <= f <= 29 / 30 -> 0 <= r < 1 ->
  Math.max 4 (BASELINE.sleepDuration - f * 2 + (r - 0.5) * 1)
  = BASELINE.sleepDuration - f * 2 + (r - 0.5) * 1.
Proof.
  intros Hf Hr. unfold Math.max, Qmax, GenericMinMax.gmax.
  destruct (4 ?= _) eqn:E; [| reflexivity |].
  - apply Qeq_alt in E. unfold BASELINE.sleepDuration in E.
    unfold Qdiv in Hf. change (/ 30) with (1 # 30) in Hf. lra.
  - apply Qgt_alt in E. unfold BASELINE.sleepDuration in E.
    unfold Qdiv in Hf. change (/ 30) with (1 # 30) in Hf. lra.
Qed.

Lemma unit_draws_draw (w : World) (i j : nat) :
  unit_draws w -> 0 <= draw w i j < 1.
Proof. intros H. apply H. Qed.



(** X2: when every draw is in [0, 1), the floor of 4 hours on
    [sleepDuration] is never reached: each sample's sleepDuration is the
    unclamped value [7.5 - driftFactor * 2 + noise], which is above 5. *)
Theorem generateSimulationData_sleep_floor_idle (w : World) :
  unit_draws w ->
  Forall2
    (fun i x =>
       sleepDuration x
       = BASELINE.sleepDuration - driftFactor i * 2 + (draw w i 2 - 0.5) * 1 /\
       5 < sleepDuration x)
    (seq 0 60) (run generateSimulationData w).
Proof.
  intros Hw. rewrite series_eq. apply Forall2_seq_map. intros i Hi.
  unfold days in Hi.
  destruct (pushed_metrics w i) as (_ & _ & E3 & _).
  rewrite E3.
  rewrite sleep_floor_idle
    by (try apply driftFactor_range; try apply unit_draws_draw; trivial; lia).
  split; [reflexivity|].
  pose proof (driftFactor_range i ltac:(lia)) as Hf.
  pose proof (unit_draws_draw w i 2 Hw) as Hr.
  unfold BASELINE.sleepDuration. revert Hf Hr.
  generalize (driftFactor i) (draw w i 2). intros f r Hf Hr.
  unfold Qdiv in Hf. change (/ 30) with (1 # 30) in Hf. lra.
Qed.

Lemma generateSimulationData_sleep_floor_idle_witness :
  unit_draws world0 /\
  Forall (fun x => 5 < sleepDuration x) (run generateSimulationData world0).
Proof.
  assert (H : unit_draws world0) by (intros k; split; [discriminate | reflexivity]).
  split; [exact H|].
  pose proof (generateSimulationData_sleep_floor_idle world0 H) as F.
  revert F. generalize (run generateSimulationData world0) (seq 0 60).
  intros l s F. induction F as [|i x s l [_ Hx] _ IH]; constructor; assumption.
Defined.




(** ** Drift without noise, and the calls made *)

Lemma related_sorted {A} (R : A -> A -> Prop) (f : nat -> A) (n start : nat) :
  (forall i j, (start <= i < j)%nat -> (j < start + n)%nat -> R (f i) (f j)) ->
  StronglySorted R (map f (seq start n)).
Proof.
  revert start. induction n as [|n IH]; intros start H; simpl; constructor.
  - apply IH. intros i j Hij Hj. apply H; lia.
  - apply Forall_forall. intros d Hd. apply in_map_iff in Hd.
    destruct Hd as [k [<- Hk]]. apply in_seq in Hk. apply H; lia.
Qed.

Lemma pushed_noise_free (w : World) (i : nat) :
  (forall k, random_tape w k == 0.5) ->
  heartRate (pushed w i) == 70 + driftFactor i * 15 /\
  hrv (pushed w i) == 65 - driftFactor i * 20 /\
  sleepDuration (pushed w i) == Qmax 4 (7.5 - driftFactor i * 2) /\
  activityLevel (pushed w i) == 8000 - driftFactor i * 3000 /\
  breathingRate (pushed w i) == 14 + driftFactor i * 4 /\
  systolicBP (pushed w i) == 120 + driftFactor i * 10 /\
  diastolicBP (pushed w i) == 80 + driftFactor i * 5 /\
  bloodSugar (pushed w i) == 90 + driftFactor i * 15.
Proof.
  intros Hw.
  destruct (pushed_metrics w i) as (E1 & E2 & E3 & E4 & E5 & E6 & E7 & E8).
  rewrite E1, E2, E3, E4, E5, E6, E7, E8. unfold draw, Math.max.
  rewrite !Hw.
  unfold BASELINE.heartRate, BASELINE.hrv, BASELINE.sleepDuration,
    BASELINE.breathingRate, BASELINE.systolicBP, BASELINE.diastolicBP,
    BASELINE.bloodSugar.
  repeat split; try ring.
  apply Q.max_compat; [reflexivity | ring].
Qed.

(** X4: when every noise term is zero (each draw is 0.5) the series drifts
    one way only: heartRate, breathingRate, systolicBP, diastolicBP and
    bloodSugar never decrease from one day to a later one, and hrv,
    sleepDuration and activityLevel never increase. *)
Theorem generateSimulationData_drift_direction (w : World) :
  (forall k, random_tape w k == 0.5) ->
  let series := run generateSimulationData w in
  let rising f := StronglySorted Qle (map f series) in
  let falling f := StronglySorted (fun a b => b <= a) (map f series) in
  rising heartRate /\ rising breathingRate /\ rising systolicBP /\
  rising diastolicBP /\ rising bloodSugar /\
  falling hrv /\ falling sleepDuration /\ falling activityLevel.
Proof.
  intros Hw. cbv zeta. rewrite series_eq, !map_map.
  assert (P : forall i j, (0 <= i < j)%nat ->
                driftFactor i <= driftFactor j)
    by (intros; apply driftFactor_mono; lia).
  repeat split; apply related_sorted; intros i j Hij _; specialize (P i j Hij);
    destruct (pushed_noise_free w i Hw) as (A1 & A2 & A3 & A4 & A5 & A6 & A7 & A8);
    destruct (pushed_noise_free w j Hw) as (B1 & B2 & B3 & B4 & B5 & B6 & B7 & B8).
  - rewrite A1, B1. lra.
  - rewrite A5, B5. lra.
  - rewrite A6, B6. lra.
  - rewrite A7, B7. lra.
  - rewrite A8, B8. lra.
  - rewrite A2, B2. lra.
  - rewrite A3, B3. apply Q.max_le_compat_l. lra.
  - rewrite A4, B4. lra.
Qed.

Lemma generateSimulationData_drift_direction_witness :
  (forall k, random_tape world0 k == 0.5) /\
  StronglySorted Qle (map heartRate (run generateSimulationData world0)) /\
  StronglySorted (fun a b => b <= a) (map hrv (run generateSimulationData world0)).
Proof.
  assert (H : forall k, random_tape world0 k == 0.5) by (intros; reflexivity).
  split; [exact H|].
  destruct (generateSimulationData_drift_direction world0 H)
    as (H1 & _ & _ & _ & _ & H2 & _).
  split; [exact H1 | exact H2].
Defined.

Lemma calculateCareScore_world (metric : HealthMetric) (w : World) :
  snd (calculateCareScore metric w)
  = {| random_tape := random_tape w; clock_tape := clock_tape w;
       random_calls := S (random_calls w); clock_calls := clock_calls w |}.
Proof.
  destruct w.
  cbv beta iota zeta delta
    [calculateCareScore bind ret Math_random snd random_tape clock_tape
     random_calls clock_calls].
  reflexivity.
Qed.

(** X5: one call of [generateSimulationData] makes exactly 480 calls of
    [Math.random] and 60 of [new Date], and one call of
    [calculateCareScore] makes exactly one call of [Math.random] and never
    reads the clock. *)
Theorem engine_calls (metric : HealthMetric) (w : World) :
  let w1 := snd (generateSimulationData w) in
  let w2 := snd (calculateCareScore metric w) in
  (random_calls w1 = random_calls w + 480 /\
   clock_calls w1 = clock_calls w + 60)%nat /\
  (random_calls w2 = random_calls w + 1 /\ clock_calls w2 = clock_calls w)%nat /\
  random_tape w1 = random_tape w /\ clock_tape w1 = clock_tape w /\
  random_tape w2 = random_tape w /\ clock_tape w2 = clock_tape w.
Proof.
  cbv zeta. rewrite generateSimulationData_eq, calculateCareScore_world.
  simpl. repeat split; lia.
Qed.

(** ** The score as a function of the sample *)

Lemma Qdiv10_le (x y : number) : x <= y -> x / 10 <= y / 10.
Proof. intros H. unfold Qdiv. change (/ 10) with (1 # 10). lra. Qed.

Lemma severity_mono (m1 m2 : HealthMetric) :
  no_better m1 m2 -> severity_of m1 <= severity_of m2.
Proof.
  intros (H1 & H2 & H3 & _). unfold severity_of, Math.min, Math.max. cbv zeta.
  apply Q.min_le_compat_l.
  assert (A : Qmax 0 ((heartRate m1 - BASELINE.heartRate) / 10)
              <= Qmax 0 ((heartRate m2 - BASELINE.heartRate) / 10))
    by (apply Q.max_le_compat_l, Qdiv10_le; lra).
  assert (B : Qmax 0 ((BASELINE.hrv - hrv m1) / 10)
              <= Qmax 0 ((BASELINE.hrv - hrv m2) / 10))
    by (apply Q.max_le_compat_l, Qdiv10_le; lra).
  assert (C : Qmax 0 (BASELINE.sleepDuration - sleepDuration m1)
              <= Qmax 0 (BASELINE.sleepDuration - sleepDuration m2))
    by (apply Q.max_le_compat_l; lra).
  revert A B C.
  generalize (Qmax 0 ((heartRate m1 - BASELINE.heartRate) / 10))
    (Qmax 0 ((heartRate m2 - BASELINE.heartRate) / 10))
    (Qmax 0 ((BASELINE.hrv - hrv m1) / 10))
    (Qmax 0 ((BASELINE.hrv - hrv m2) / 10))
    (Qmax 0 (BASELINE.sleepDuration - sleepDuration m1))
    (Qmax 0 (BASELINE.sleepDuration - sleepDuration m2)).
  intros. lra.
Qed.

Lemma step_mono (b1 b2 : bool) (s1 s2 k : number) :
  (b1 = true -> b2 = true) -> 0 <= k -> s1 <= s2 ->
  (if b1 then s1 + k else s1) <= (if b2 then s2 + k else s2).
Proof.
  intros Hb Hk Hs. destruct b1, b2; try lra.
Qed.

Lemma num_gt_mono (a a' b : number) :
  a <= a' -> num_gt a b = true -> num_gt a' b = true.
Proof. rewrite !num_gt_true. intros. lra. Qed.

Lemma num_lt_true (a b : number) : num_lt a b = true <-> a < b.
Proof.
  unfold num_lt. rewrite Qlt_alt.
  destruct (a ?= b); simpl; split; congruence.
Qed.

Lemma num_gt_compat_r (a b b' : number) : b == b' -> num_gt a b = num_gt a b'.
Proof. intros H. unfold num_gt. now rewrite H. Qed.

Lemma num_lt_compat_r (a b b' : number) : b == b' -> num_lt a b = num_lt a b'.
Proof. intros H. unfold num_lt. now rewrite H. Qed.

Lemma num_lt_mono (a a' b : number) :
  a' <= a -> num_lt a b = true -> num_lt a' b = true.
Proof. rewrite !num_lt_true. intros. lra. Qed.

Lemma signals_mono (m1 m2 : HealthMetric) :
  no_better m1 m2 -> signals_of m1 <= signals_of m2.
Proof.
  intros (H1 & H2 & H3 & H4 & _). unfold signals_of. cbv zeta.
  apply step_mono; [apply num_gt_mono; exact H4 | discriminate |].
  apply step_mono; [apply num_lt_mono; exact H3 | discriminate |].
  apply step_mono; [apply num_lt_mono; exact H2 | discriminate |].
  apply step_mono; [apply num_gt_mono; exact H1 | discriminate |].
  apply Qle_refl.
Qed.

Lemma min_mono (c x y : number) : x <= y -> Math.min c x <= Math.min c y.
Proof. intros H. unfold Math.min. apply Q.min_le_compat_l. exact H. Qed.

Lemma crossSignal_mono (m1 m2 : HealthMetric) :
  no_better m1 m2 -> crossSignal_of m1 <= crossSignal_of m2.
Proof.
  intros H. unfold crossSignal_of. apply min_mono.
  pose proof (signals_mono m1 m2 H) as S. revert S.
  generalize (signals_of m1) (signals_of m2). intros. lra.
Qed.

Lemma manual_mono (m1 m2 : HealthMetric) :
  no_better m1 m2 -> manual_of m1 <= manual_of m2.
Proof.
  intros (_ & _ & _ & _ & H5 & H6 & H7). unfold manual_of. cbv zeta.
  apply min_mono.
  apply step_mono; [| discriminate |].
  { destruct (symptoms m1) as [|a l], (symptoms m2) as [|b l']; simpl;
      trivial. intros _. exfalso. apply H7; [discriminate | reflexivity]. }
  apply step_mono; [apply num_gt_mono; exact H6 | discriminate |].
  apply step_mono; [apply num_gt_mono; exact H5 | discriminate |].
  apply Qle_refl.
Qed.

Lemma totalScore_mono (m1 m2 : HealthMetric) :
  no_better m1 m2 -> totalScore_of m1 <= totalScore_of m2.
Proof.
  intros H. unfold totalScore_of. apply round_mono.
  pose proof (severity_mono m1 m2 H) as A.
  pose proof (crossSignal_mono m1 m2 H) as C.
  pose proof (manual_mono m1 m2 H) as D.
  rewrite !persistence_exact. revert A C D.
  generalize (severity_of m1) (severity_of m2) (crossSignal_of m1)
    (crossSignal_of m2) (manual_of m1) (manual_of m2).
  intros. lra.
Qed.

Lemma classify_mono (t1 t2 : number) :
  t1 <= t2 -> (level (classify t1) <= level (classify t2))%nat.
Proof.
  intros H. unfold classify. cbv zeta.
  destruct (num_gt t1 30) eqn:A1, (num_gt t1 50) eqn:A2, (num_gt t1 70) eqn:A3,
    (num_gt t2 30) eqn:B1, (num_gt t2 50) eqn:B2, (num_gt t2 70) eqn:B3;
    simpl; try lia;
    try apply num_gt_true in A1; try apply num_gt_false in A1;
    try apply num_gt_true in A2; try apply num_gt_false in A2;
    try apply num_gt_true in A3; try apply num_gt_false in A3;
    try apply num_gt_true in B1; try apply num_gt_false in B1;
    try apply num_gt_true in B2; try apply num_gt_false in B2;
    try apply num_gt_true in B3; try apply num_gt_false in B3;
    exfalso; lra.
Qed.

(** X6: the score never rewards a worse sample.  If [m2] is at least as bad
    as [m1] on every field read (heartRate, breathingRate, systolicBP and
    bloodSugar not lower, hrv and sleepDuration not higher, symptoms
    reported if [m1] reports some), then every component and the total of
    [m2] are at least those of [m1], its status is at least as severe, its
    drift flag is raised if that of [m1] is, and its stability is not
    higher. *)
Theorem calculateCareScore_monotone (m1 m2 : HealthMetric) (w1 w2 : World) :
  no_better m1 m2 ->
  let r1 := run (calculateCareScore m1) w1 in
  let r2 := run (calculateCareScore m2) w2 in
  severity (breakdown r1) <= severity (breakdown r2) /\
  persistence (breakdown r1) <= persistence (breakdown r2) /\
  crossSignal (breakdown r1) <= crossSignal (breakdown r2) /\
  manualModifier (breakdown r1) <= manualModifier (breakdown r2) /\
  total (breakdown r1) <= total (breakdown r2) /\
  (level (status r1) <= level (status r2))%nat /\
  (driftDetected r1 = true -> driftDetected r2 = true) /\
  stability r2 <= stability r1.
Proof.
  intros H. cbv zeta. rewrite !calculateCareScore_eq.
  cbn [breakdown severity persistence crossSignal manualModifier total status
       driftDetected stability].
  pose proof (severity_mono m1 m2 H) as A.
  pose proof (totalScore_mono m1 m2 H) as T.
  split; [exact A|].
  split; [rewrite !persistence_exact; revert A;
          generalize (severity_of m1) (severity_of m2); intros; lra|].
  split; [apply crossSignal_mono, H|].
  split; [apply manual_mono, H|].
  split; [exact T|].
  split; [apply classify_mono, T|].
  split; [apply num_gt_mono, T|].
  unfold Math.max. apply Q.max_le_compat_l. revert T.
  generalize (totalScore_of m1) (totalScore_of m2). intros. lra.
Qed.

Lemma calculateCareScore_monotone_witness :
  no_better boundary50 worse50 /\
  total (breakdown (run (calculateCareScore boundary50) world0))
  <= total (breakdown (run (calculateCareScore worse50) world1)).
Proof.
  assert (H : no_better boundary50 worse50).
  { unfold no_better, boundary50, worse50; simpl.
    repeat split; try discriminate. }
  split; [exact H|].
  destruct (calculateCareScore_monotone boundary50 worse50 world0 world1 H)
    as (_ & _ & _ & _ & T & _).
  exact T.
Defined.

Lemma severity_unremarkable (m : HealthMetric) :
  unremarkable m -> severity_of m == 0.
Proof.
  intros (H1 & H2 & H3 & _). unfold severity_of, Math.min, Math.max. cbv zeta.
  rewrite (Q.max_l 0 ((heartRate m - BASELINE.heartRate) / 10)),
    (Q.max_l 0 ((BASELINE.hrv - hrv m) / 10)),
    (Q.max_l 0 (BASELINE.sleepDuration - sleepDuration m)).
  - reflexivity.
  - unfold BASELINE.sleepDuration. lra.
  - unfold BASELINE.hrv, Qdiv. change (/ 10) with (1 # 10). lra.
  - unfold BASELINE.heartRate, Qdiv. change (/ 10) with (1 # 10). lra.
Qed.

Lemma signals_unremarkable (m : HealthMetric) :
  unremarkable m -> signals_of m = 0.
Proof.
  intros (H1 & H2 & H3 & H4 & _). unfold signals_of. cbv zeta.
  assert (E1 : (heartRate m >? BASELINE.heartRate + 5) = false)
    by (apply num_gt_false; unfold BASELINE.heartRate; lra).
  assert (E2 : (hrv m <? BASELINE.hrv - 5) = false).
  { destruct (hrv m <? BASELINE.hrv - 5) eqn:E; trivial.
    apply num_lt_true in E. unfold BASELINE.hrv in E. lra. }
  assert (E3 : (sleepDuration m <? BASELINE.sleepDuration - 1) = false).
  { destruct (sleepDuration m <? BASELINE.sleepDuration - 1) eqn:E; trivial.
    apply num_lt_true in E. unfold BASELINE.sleepDuration in E. lra. }
  assert (E4 : (breathingRate m >? BASELINE.breathingRate + 2) = false)
    by (apply num_gt_false; unfold BASELINE.breathingRate; lra).
  now rewrite E1, E2, E3, E4.
Qed.

Lemma manual_unremarkable (m : HealthMetric) :
  unremarkable m -> manual_of m = 0.
Proof.
  intros (_ & _ & _ & _ & H5 & H6 & H7). unfold manual_of. cbv zeta.
  assert (E5 : (systolicBP m >? 130) = false) by (apply num_gt_false; lra).
  assert (E6 : (bloodSugar m >? 110) = false) by (apply num_gt_false; lra).
  now rewrite E5, E6, H7.
Qed.

(** X7: a sample with nothing to remark (heartRate at most 70, hrv at
    least 65, sleepDuration at least 7.5, breathingRate at most 16,
    systolicBP at most 130, bloodSugar at most 110, no symptoms) scores
    zero on every component: total 0, Stable, no drift, stability 100.
    The baseline sample is one such sample among many. *)
Theorem calculateCareScore_unremarkable (m : HealthMetric) (w : World) :
  unremarkable m ->
  let r := run (calculateCareScore m) w in
  severity (breakdown r) == 0 /\ persistence (breakdown r) == 0 /\
  crossSignal (breakdown r) == 0 /\ manualModifier (breakdown r) == 0 /\
  total (breakdown r) = 0 /\ currentScore r = 0 /\
  status r = Stable /\ driftDetected r = false /\ stability r == 100.
Proof.
  intros H. cbv zeta. rewrite calculateCareScore_eq.
  cbn [breakdown severity persistence crossSignal manualModifier total status
       currentScore driftDetected stability].
  pose proof (severity_unremarkable m H) as A.
  assert (B : persistence_of m == 0)
    by (rewrite persistence_exact, A; reflexivity).
  assert (C : crossSignal_of m == 0)
    by (unfold crossSignal_of; rewrite (signals_unremarkable m H); reflexivity).
  assert (D : manual_of m == 0) by (rewrite (manual_unremarkable m H); reflexivity).
  assert (T : totalScore_of m = 0).
  { unfold totalScore_of.
    rewrite (round_compat _ 0); [reflexivity|]. rewrite A, B, C, D. reflexivity. }
  rewrite T. repeat split; trivial; reflexivity.
Qed.

Lemma calculateCareScore_unremarkable_witness :
  unremarkable athlete /\
  total (breakdown (run (calculateCareScore athlete) world1)) = 0 /\
  status (run (calculateCareScore athlete) world1) = Stable.
Proof.
  assert (H : unremarkable athlete).
  { unfold unremarkable, athlete; simpl. repeat split; discriminate. }
  split; [exact H|].
  destruct (calculateCareScore_unremarkable athlete world1 H)
    as (_ & _ & _ & _ & T & _ & S & _).
  split; [exact T | exact S].
Defined.

(** X8: the caps of 20 on crossSignal and of 15 on manualModifier never
    bind: crossSignal is exactly five times the number of the four signal
    tests that are passed, and manualModifier exactly five times the number
    of the three modifier tests that are passed. *)
Theorem calculateCareScore_counts (m : HealthMetric) (w : World) :
  let b := breakdown (run (calculateCareScore m) w) in
  crossSignal b
  == 5 * (passed (heartRate m >? 75) + passed (hrv m <? 60)
          + passed (sleepDuration m <? 6.5) + passed (breathingRate m >? 16)) /\
  manualModifier b
  == 5 * (passed (systolicBP m >? 130) + passed (bloodSugar m >? 110)
          + passed (0 <? List.length (symptoms m))%nat).
Proof.
  cbv zeta. rewrite calculateCareScore_eq. cbn [breakdown crossSignal manualModifier].
  unfold crossSignal_of, signals_of, manual_of. cbv zeta.
  change (BASELINE.heartRate + 5) with (70 + 5).
  change (BASELINE.hrv - 5) with (65 - 5).
  change (BASELINE.sleepDuration - 1) with (7.5 - 1).
  change (BASELINE.breathingRate + 2) with (14 + 2).
  rewrite (num_gt_compat_r (heartRate m) (70 + 5) 75),
    (num_lt_compat_r (hrv m) (65 - 5) 60),
    (num_lt_compat_r (sleepDuration m) (7.5 - 1) 6.5),
    (num_gt_compat_r (breathingRate m) (14 + 2) 16) by reflexivity.
  split.
  - destruct (heartRate m >? 75), (hrv m <? 60), (sleepDuration m <? 6.5),
      (breathingRate m >? 16); reflexivity.
  - destruct (systolicBP m >? 130), (bloodSugar m >? 110),
      (symptoms m); reflexivity.
Qed.

Lemma confidence_range (m : HealthMetric) (w : World) :
  unit_draws w ->
  85 <= confidence (run (calculateCareScore m) w) < 95.
Proof.
  intros H. rewrite calculateCareScore_eq. cbn [confidence].
  specialize (H (random_calls w)). revert H.
  generalize (random_tape w (random_calls w)). intros r H. lra.
Qed.

(** ** The Dashboard page in demo mode *)

Lemma calculateCareScore_pair (metric : HealthMetric) (w : World) :
  calculateCareScore metric w
  = (run (calculateCareScore metric) w,
     {| random_tape := random_tape w; clock_tape := clock_tape w;
        random_calls := S (random_calls w); clock_calls := clock_calls w |}).
Proof.
  pose proof (calculateCareScore_world metric w) as E. unfold run.
  destruct (calculateCareScore metric w) as [r w']. cbn [fst snd] in *.
  now rewrite E.
Qed.

Lemma loadSimulationData_eq (st : Dashboard.State) (w : World) :
  run (Dashboard.loadSimulationData st) w
  = ({| Dashboard.data :=
          map Dashboard.toDisplay (run generateSimulationData w);
        Dashboard.analysis :=
          Some (Dashboard.set_trends
                  (run (calculateCareScore (pushed w 59)) (skip w 60))
                  (run generateSimulationData w));
        Dashboard.isUsingRealData := false |}, Normal).
Proof.
  unfold run at 1. unfold Dashboard.loadSimulationData. unfold bind at 1.
  rewrite series_eq, generateSimulationData_eq.
  cbv beta iota zeta.
  rewrite length_map, length_seq.
  change (days - 1)%nat with 59%nat.
  rewrite nth_error_map.
  change (nth_error (seq 0 days) 59) with (Some 59%nat).
  cbn [option_map]. unfold bind at 1.
  rewrite calculateCareScore_pair. reflexivity.
Qed.

Lemma round_half_58 : Math.round 57.5 = 58.
Proof. vm_compute. reflexivity. Qed.

(** The score of a sample in the ranges of the last generated day. *)
Lemma late_sample_score (m : HealthMetric) :
  82 <= heartRate m < 87 -> 122 # 3 <= hrv m < 152 # 3 ->
  76 # 15 <= sleepDuration m < 91 # 15 -> 16 < breathingRate m ->
  bloodSugar m <= 110 -> symptoms m <> [] ->
  (20 < severity_of m < 33) /\ (12 < persistence_of m < 20) /\
  crossSignal_of m == 20 /\ (manual_of m == 5 \/ manual_of m == 10) /\
  (58 <= totalScore_of m <= 83).
Proof.
  intros H1 H2 H3 H4 H5 H6.
  assert (A : 61 # 3 < severity_of m < 197 # 6).
  { unfold severity_of, Math.min, Math.max. cbv zeta.
    unfold BASELINE.heartRate, BASELINE.hrv, BASELINE.sleepDuration, Qdiv.
    change (/ 10) with (1 # 10).
    rewrite (Q.max_r 0 ((heartRate m - 70) * (1 # 10))),
      (Q.max_r 0 ((65 - hrv m) * (1 # 10))),
      (Q.max_r 0 (7.5 - sleepDuration m)) by lra.
    rewrite Q.min_r by lra. lra. }
  assert (B : persistence_of m == severity_of m * 0.6)
    by (rewrite persistence_exact; reflexivity).
  assert (C : crossSignal_of m == 20).
  { unfold crossSignal_of, signals_of. cbv zeta.
    assert (E1 : (heartRate m >? BASELINE.heartRate + 5) = true)
      by (apply num_gt_true; unfold BASELINE.heartRate; lra).
    assert (E2 : (hrv m <? BASELINE.hrv - 5) = true)
      by (apply num_lt_true; unfold BASELINE.hrv; lra).
    assert (E3 : (sleepDuration m <? BASELINE.sleepDuration - 1) = true)
      by (apply num_lt_true; unfold BASELINE.sleepDuration; lra).
    assert (E4 : (breathingRate m >? BASELINE.breathingRate + 2) = true)
      by (apply num_gt_true; unfold BASELINE.breathingRate; lra).
    rewrite E1, E2, E3, E4. reflexivity. }
  assert (D : manual_of m == 5 \/ manual_of m == 10).
  { unfold manual_of. cbv zeta.
    assert (E6 : (bloodSugar m >? 110) = false) by (apply num_gt_false; lra).
    rewrite E6. destruct (symptoms m) as [|s l]; [contradiction|].
    destruct (systolicBP m >? 130); [right | left]; reflexivity. }
  assert (T : 58 <= totalScore_of m <= 83).
  { unfold totalScore_of. rewrite <- round_half_58.
    change 83 with (inject_Z 83). rewrite <- (round_integer 83).
    change (inject_Z 83) with 83.
    revert A B C D.
    generalize (severity_of m) (persistence_of m) (crossSignal_of m) (manual_of m).
    intros s p c d A B C D. split; apply round_mono; lra. }
  revert A B. generalize (severity_of m) (persistence_of m). intros s p A B.
  repeat split; trivial; lra.
Qed.

Lemma pushed_last_ranges (w : World) :
  unit_draws w ->
  let m := pushed w 59 in
  82 <= heartRate m < 87 /\ 122 # 3 <= hrv m < 152 # 3 /\
  76 # 15 <= sleepDuration m < 91 # 15 /\ 16 < breathingRate m /\
  bloodSugar m <= 110 /\ symptoms m <> [].
Proof.
  intros Hw. cbv zeta.
  destruct (pushed_metrics w 59) as (E1 & E2 & E3 & _ & E5 & _ & _ & E8).
  rewrite E1, E2, E3, E5, E8, pushed_symptoms.
  assert (F : driftFactor 59 == 29 # 30) by reflexivity.
  assert (F' : 0 <= driftFactor 59 <= 29 / 30) by (apply driftFactor_range; lia).
  rewrite sleep_floor_idle by (trivial; apply unit_draws_draw; exact Hw).
  pose proof (unit_draws_draw w 59 0 Hw). pose proof (unit_draws_draw w 59 1 Hw).
  pose proof (unit_draws_draw w 59 2 Hw). pose proof (unit_draws_draw w 59 4 Hw).
  pose proof (unit_draws_draw w 59 7 Hw).
  unfold BASELINE.heartRate, BASELINE.hrv, BASELINE.sleepDuration,
    BASELINE.breathingRate, BASELINE.bloodSugar.
  clear F'. revert F.
  generalize dependent (draw w 59 0). generalize dependent (draw w 59 1).
  generalize dependent (draw w 59 2). generalize dependent (draw w 59 4).
  generalize dependent (draw w 59 7). generalize (driftFactor 59).
  intros. repeat split; try lra. discriminate.
Qed.

Lemma unit_draws_skip (w : World) (k : nat) : unit_draws w -> unit_draws (skip w k).
Proof. intros H j. exact (H j). Qed.

(** The analysis of the sample of the last day. *)
Lemma last_day_analysis (w : World) :
  unit_draws w ->
  let a := run (calculateCareScore (pushed w 59)) (skip w 60) in
  58 <= currentScore a <= 83 /\
  (status a = Moderate \/ status a = High) /\
  driftDetected a = true /\
  (20 < severity (breakdown a) < 33) /\
  (12 < persistence (breakdown a) < 20) /\
  crossSignal (breakdown a) == 20 /\
  (manualModifier (breakdown a) == 5 \/ manualModifier (breakdown a) == 10) /\
  17 <= stability a <= 42 /\
  85 <= confidence a < 95.
Proof.
  intros Hw. cbv zeta.
  pose proof (confidence_range (pushed w 59) (skip w 60) (unit_draws_skip w 60 Hw)) as Hc.
  revert Hc. rewrite calculateCareScore_eq.
  cbn [currentScore breakdown severity persistence crossSignal manualModifier
       total status driftDetected stability confidence].
  intros Hc.
  destruct (pushed_last_ranges w Hw) as (R1 & R2 & R3 & R4 & R5 & R6).
  destruct (late_sample_score (pushed w 59) R1 R2 R3 R4 R5 R6)
    as (A & B & C & D & T).
  destruct (classify_spec (totalScore_of (pushed w 59))) as (_ & _ & S3 & S4).
  assert (G : (totalScore_of (pushed w 59) >? 30) = true).
  { apply num_gt_true. revert T. generalize (totalScore_of (pushed w 59)).
    intros t T. lra. }
  assert (S : classify (totalScore_of (pushed w 59)) = Moderate
              \/ classify (totalScore_of (pushed w 59)) = High).
  { destruct (Qlt_le_dec 70 (totalScore_of (pushed w 59))) as [L|L].
    - right. apply S4, L.
    - left. apply S3. revert T L. generalize (totalScore_of (pushed w 59)).
      intros t T L. lra. }
  assert (V : 17 <= Math.max 0 (100 - totalScore_of (pushed w 59)) <= 42).
  { unfold Math.max. revert T. generalize (totalScore_of (pushed w 59)).
    intros t T. rewrite Q.max_r by lra. lra. }
  repeat split; trivial; try apply T; try apply A; try apply B; try apply V;
    try apply Hc.
Qed.



(** X10: what the Dashboard renders in demo mode.  When every draw is in
    [0, 1) the three drift-factor lines (High Severity Deviation, Sustained
    Trend, Reported Symptoms) and "Clinical drift detected" are always
    shown, "No significant drift factors" never is, and the score is
    printed in amber or red. *)
Theorem Dashboard_demo_render (st : Dashboard.State) (w : World) :
  unit_draws w ->
  exists a : AnalysisResult,
    Dashboard.analysis (fst (run (Dashboard.loadSimulationData st) w)) = Some a /\
    Dashboard.showsHighSeverity a = true /\
    Dashboard.showsSustainedTrend a = true /\
    Dashboard.showsReportedSymptoms a = true /\
    Dashboard.showsDriftDetected a = true /\
    Dashboard.showsNoFactors a = false /\
    (Dashboard.scoreColor a = "text-amber-600"%string \/
     Dashboard.scoreColor a = "text-red-600"%string).
Proof.
  intros Hw. rewrite loadSimulationData_eq. cbn [fst Dashboard.analysis].
  eexists. split; [reflexivity|].
  destruct (last_day_analysis w Hw) as (T & _ & D & A & B & _ & M & _).
  revert T D A B M.
  generalize (run (calculateCareScore (pushed w 59)) (skip w 60)).
  intros a T D A B M.
  unfold Dashboard.showsHighSeverity, Dashboard.showsSustainedTrend,
    Dashboard.showsReportedSymptoms, Dashboard.showsDriftDetected,
    Dashboard.showsNoFactors, Dashboard.scoreColor, Dashboard.set_trends.
  cbn [currentScore breakdown driftDetected].
  revert T A B M.
  generalize (currentScore a) (severity (breakdown a))
    (persistence (breakdown a)) (manualModifier (breakdown a)).
  intros t s p m T A B M.
  split; [apply num_gt_true; lra|].
  split; [apply num_gt_true; lra|].
  split; [apply num_gt_true; lra|].
  split; [exact D|].
  split.
  - destruct (t <? 30) eqn:E; trivial. apply num_lt_true in E. lra.
  - destruct (t >? 70); [right; reflexivity|].
    destruct (t >? 50) eqn:E; [left; reflexivity|].
    apply num_gt_false in E. lra.
Qed.

Lemma Dashboard_demo_render_witness :
  unit_draws world0 /\
  exists a : AnalysisResult,
    Dashboard.analysis
      (fst (run (Dashboard.loadSimulationData
                   {| Dashboard.data := []; Dashboard.analysis := None;
                      Dashboard.isUsingRealData := true |}) world0)) = Some a /\
    Dashboard.showsNoFactors a = false.
Proof.
  assert (H : unit_draws world0) by (intros k; split; [discriminate | reflexivity]).
  split; [exact H|].
  destruct (Dashboard_demo_render
              {| Dashboard.data := []; Dashboard.analysis := None;
                 Dashboard.isUsingRealData := true |} world0 H)
    as (a & Ha & _ & _ & _ & _ & N & _).
  exists a. split; [exact Ha | exact N].
Defined.

(** ** The Dashboard page on any result of the engine *)

(** X11: on every result of [calculateCareScore] the colour of the printed
    score agrees with the status badge (red with High, amber with Moderate,
    blue with Mild, emerald with Stable); the "Review Escalation" button is
    shown exactly for status High, and "Clinical drift detected" exactly
    when the status is not Stable. *)
Theorem Dashboard_colours_agree (m : HealthMetric) (w : World) :
  let a := run (calculateCareScore m) w in
  (Dashboard.scoreColor a = "text-red-600"%string <-> status a = High) /\
  (Dashboard.scoreColor a = "text-amber-600"%string <-> status a = Moderate) /\
  (Dashboard.scoreColor a = "text-blue-600"%string <-> status a = Mild) /\
  (Dashboard.scoreColor a = "text-emerald-600"%string <-> status a = Stable) /\
  (Dashboard.showsEscalation a = true <-> status a = High) /\
  (Dashboard.showsDriftDetected a = true <-> status a <> Stable) /\
  In (Dashboard.scoreColor a, Dashboard.statusBadge a)
     [("text-red-600", "bg-red-50 text-red-700 border-red-200");
      ("text-amber-600", "bg-amber-50 text-amber-700 border-amber-200");
      ("text-blue-600", "bg-blue-50 text-blue-700 border-blue-200");
      ("text-emerald-600", "bg-emerald-50 text-emerald-700 border-emerald-200")
     ]%string.
Proof.
  cbv zeta. unfold Dashboard.scoreColor, Dashboard.showsEscalation,
    Dashboard.showsDriftDetected, Dashboard.statusBadge.
  rewrite calculateCareScore_eq. cbn [currentScore status driftDetected].
  unfold classify. cbv zeta. generalize (totalScore_of m). intros t.
  destruct (t >? 70) eqn:E70, (t >? 50) eqn:E50, (t >? 30) eqn:E30;
    try apply num_gt_true in E30; try apply num_gt_false in E30;
    try apply num_gt_true in E50; try apply num_gt_false in E50;
    try apply num_gt_true in E70; try apply num_gt_false in E70;
    try (exfalso; lra);
    repeat split; intros; try discriminate; try congruence;
    cbn [In]; tauto.
Qed.

(** X12: on every result of [calculateCareScore], whenever "High Severity
    Deviation" is listed "Sustained Trend" is listed too, and "No
    significant drift factors" is not; and "No significant drift factors"
    is only shown with status Stable and without "Clinical drift
    detected". *)
Theorem Dashboard_factor_lines (m : HealthMetric) (w : World) :
  let a := run (calculateCareScore m) w in
  (Dashboard.showsHighSeverity a = true ->
   Dashboard.showsSustainedTrend a = true /\ Dashboard.showsNoFactors a = false) /\
  (Dashboard.showsNoFactors a = true ->
   status a = Stable /\ Dashboard.showsDriftDetected a = false).
Proof.
  cbv zeta. unfold Dashboard.showsHighSeverity, Dashboard.showsSustainedTrend,
    Dashboard.showsNoFactors, Dashboard.showsDriftDetected.
  rewrite calculateCareScore_eq.
  cbn [currentScore breakdown severity persistence status driftDetected].
  split.
  - intros H. apply num_gt_true in H. split.
    + apply num_gt_true. rewrite persistence_exact. revert H.
      generalize (severity_of m). intros s H. lra.
    + destruct (totalScore_of m <? 30) eqn:E; trivial. exfalso.
      apply num_lt_true in E.
      assert (T : 32 <= totalScore_of m).
      { unfold totalScore_of. change 32 with (inject_Z 32).
        rewrite <- (round_integer 32). apply round_mono.
        change (inject_Z 32) with 32.
        pose proof (crossSignal_bounds m) as C. pose proof (manual_bounds m) as D.
        rewrite persistence_exact. revert H C D.
        generalize (severity_of m) (crossSignal_of m) (manual_of m).
        intros. lra. }
      revert E T. generalize (totalScore_of m). intros. lra.
  - intros H. apply num_lt_true in H.
    destruct (classify_spec (totalScore_of m)) as (S1 & _).
    split.
    + apply S1. revert H. generalize (totalScore_of m). intros. lra.
    + apply num_gt_false. revert H. generalize (totalScore_of m). intros. lra.
Qed.

Lemma Dashboard_factor_lines_witness :
  Dashboard.showsHighSeverity (run (calculateCareScore saturated) world0) = true /\
  Dashboard.showsSustainedTrend (run (calculateCareScore saturated) world0) = true /\
  Dashboard.showsNoFactors (run (calculateCareScore athlete) world0) = true /\
  status (run (calculateCareScore athlete) world0) = Stable.
Proof.
  assert (H1 : Dashboard.showsHighSeverity
                 (run (calculateCareScore saturated) world0) = true)
    by (vm_compute; reflexivity).
  assert (H2 : Dashboard.showsNoFactors
                 (run (calculateCareScore athlete) world0) = true)
    by (vm_compute; reflexivity).
  split; [exact H1|].
  split; [exact (proj1 (proj1 (Dashboard_factor_lines saturated world0) H1))|].
  split; [exact H2|].
  exact (proj1 (proj2 (Dashboard_factor_lines athlete world0) H2)).
Defined.

(** * Properties of the API client and the Manual Entry page *)

(** ** [parseInt] and [toString] *)

Lemma digits_uint (d : Decimal.uint) (rest : string) (acc : Z) (seen : bool) :
  no_digit_ahead rest ->
  d <> Decimal.Nil \/ seen = true ->
  Auth.digits (NilEmpty.string_of_uint d ++ rest) acc seen
  = Some (uint_value d acc).
Proof.
  intros Hrest. revert acc seen.
  induction d; intros acc seen Hd.
  1: { destruct Hd as [Hd | ->]; [congruence|]. cbn [NilEmpty.string_of_uint append].
       destruct rest as [|c rest]; cbn [Auth.digits uint_value];
         [|unfold no_digit_ahead in Hrest; rewrite Hrest]; reflexivity. }
  all: cbn [NilEmpty.string_of_uint append Auth.digits uint_value];
    match goal with
    | |- context [Auth.digit_of ?c] =>
        let v := eval vm_compute in (Auth.digit_of c) in
        change (Auth.digit_of c) with v
    end;
    cbv beta iota; apply IHd; right; reflexivity.
Qed.

Lemma uint_value_pos (d : Decimal.uint) (p : positive) :
  uint_value d (Z.pos p) = Z.pos (Pos.of_uint_acc d p).
Proof.
  revert p. induction d; intros p; cbn [uint_value Pos.of_uint_acc];
    [reflexivity | ..];
    match goal with
    | |- uint_value _ ?a = Z.pos (Pos.of_uint_acc _ ?q) =>
        replace a with (Z.pos q) by lia
    end; apply IHd.
Qed.

Lemma uint_value_zero (d : Decimal.uint) :
  uint_value d 0 = Z.of_N (Pos.of_uint d).
Proof.
  induction d; cbn [uint_value Pos.of_uint]; [reflexivity | exact IHd | ..];
    match goal with
    | |- uint_value _ ?a = _ =>
        let v := eval vm_compute in a in change a with v
    end; rewrite uint_value_pos; reflexivity.
Qed.

Lemma digits_of_pos (p : positive) (rest : string) (seen : bool) :
  no_digit_ahead rest ->
  Auth.digits (NilEmpty.string_of_uint (Pos.to_uint p) ++ rest) 0 seen
  = Some (Z.pos p).
Proof.
  intros Hrest. rewrite digits_uint; trivial.
  - rewrite uint_value_zero, DecimalPos.Unsigned.of_to. reflexivity.
  - left. apply DecimalPos.Unsigned.to_uint_nonnil.
Qed.

Lemma string_of_uint_nonnil (d : Decimal.uint) :
  d <> Decimal.Nil -> NilZero.string_of_uint d = NilEmpty.string_of_uint d.
Proof. destruct d; [congruence | reflexivity ..]. Qed.

Lemma trim_start_white (ws s : string) :
  white ws -> Auth.trim_start (ws ++ s) = Auth.trim_start s.
Proof.
  induction ws as [|c ws IH]; intros H; [reflexivity|].
  destruct H as [Hc Hws]. cbn [append Auth.trim_start]. rewrite Hc. auto.
Qed.

Lemma trim_start_digit (c : ascii) (s : string) :
  Auth.is_white_space c = false -> Auth.trim_start (String c s) = String c s.
Proof. intros H. cbn [Auth.trim_start]. now rewrite H. Qed.

Lemma append_empty (s : string) : (s ++ "")%string = s.
Proof. induction s as [|c s IH]; [reflexivity|]. cbn [append]. now rewrite IH. Qed.

Lemma unsigned_head (d : Decimal.uint) (rest : string) :
  d <> Decimal.Nil ->
  let s := (NilEmpty.string_of_uint d ++ rest)%string in
  Auth.trim_start s = s /\
  match s with
  | String "-"%char s' => (true, s')
  | String "+"%char s' => (false, s')
  | _ => (false, s)
  end = (false, s).
Proof. destruct d; [congruence | split; reflexivity ..]. Qed.

Lemma parseInt_toString (z : Z) (rest : string) :
  no_digit_ahead rest ->
  Auth.parseInt (Auth.Number_toString z ++ rest) = Auth.Num z.
Proof.
  intros Hrest. unfold Auth.parseInt, Auth.Number_toString.
  destruct z as [|p|p]; cbn [Z.to_int NilZero.string_of_int].
  - cbn [NilZero.string_of_uint NilEmpty.string_of_uint append Auth.trim_start].
    change (Auth.is_white_space "0") with false. cbv beta iota zeta.
    cbn [Auth.digits]. change (Auth.digit_of "0") with (Some 0%Z). cbv beta iota.
    destruct rest as [|c rest]; cbn [Auth.digits]; [reflexivity|].
    unfold no_digit_ahead in Hrest. now rewrite Hrest.
  - rewrite string_of_uint_nonnil by apply DecimalPos.Unsigned.to_uint_nonnil.
    destruct (unsigned_head (Pos.to_uint p) rest
                (DecimalPos.Unsigned.to_uint_nonnil p)) as [E1 E2].
    cbv zeta in E1, E2. rewrite E1. cbv zeta. rewrite E2.
    now rewrite digits_of_pos.
  - rewrite string_of_uint_nonnil by apply DecimalPos.Unsigned.to_uint_nonnil.
    cbn [append Auth.trim_start]. change (Auth.is_white_space "-") with false.
    cbv beta iota zeta.
    now rewrite digits_of_pos.
Qed.

(** X13: [parseInt] reads back what [toString] prints.  For every integer
    [z] that a number holds exactly (at most 2^53 in magnitude), [parseInt]
    of the decimal text of [z], preceded by any white space and followed by
    anything that does not begin with a digit, is [z]; in particular
    [parseInt(z.toString(), 10) = z]. *)
Theorem parseInt_reads_toString (z : Z) (ws rest : string) :
  (Z.abs z <= 2 ^ 53)%Z -> white ws -> no_digit_ahead rest ->
  Auth.parseInt (ws ++ Auth.Number_toString z ++ rest) = Auth.Num z /\
  Auth.parseInt (Auth.Number_toString z) = Auth.Num z.
Proof.
  intros _ Hws Hrest. split.
  - unfold Auth.parseInt at 1. rewrite trim_start_white by exact Hws.
    exact (parseInt_toString z rest Hrest).
  - rewrite <- (append_empty (Auth.Number_toString z)).
    exact (parseInt_toString z "" I).
Qed.

Lemma parseInt_reads_toString_witness :
  ((Z.abs (-4217) <= 2 ^ 53)%Z /\ white "  " /\ no_digit_ahead "px")%string /\
  Auth.parseInt ("  -4217px")%string = Auth.Num (-4217)%Z.
Proof.
  assert (H1 : (Z.abs (-4217) <= 2 ^ 53)%Z) by discriminate.
  assert (H2 : white "  "%string) by (repeat split).
  assert (H3 : no_digit_ahead "px"%string) by reflexivity.
  split; [repeat split; assumption|].
  exact (proj1 (parseInt_reads_toString (-4217)%Z "  " "px" H1 H2 H3)).
Defined.

(** ** localStorage and the session *)

Lemma getItem_setItem (s : Auth.Storage) (key value k : string) :
  Auth.getItem (Auth.setItem s key value) k
  = if String.eqb k key then Some value else Auth.getItem s k.
Proof. reflexivity. Qed.

Lemma getItem_removeItem (s : Auth.Storage) (key k : string) :
  Auth.getItem (Auth.removeItem s key) k
  = if String.eqb k key then None else Auth.getItem s k.
Proof. reflexivity. Qed.

Lemma getItem_clear_auth (s : Auth.Storage) (k : string) :
  Auth.getItem (Auth.clear_auth s) k
  = if (String.eqb k "pulse_api_key" || String.eqb k "pulse_user_id"
        || String.eqb k "pulse_user")%bool
    then None else Auth.getItem s k.
Proof.
  unfold Auth.clear_auth. rewrite !getItem_removeItem.
  destruct (String.eqb k "pulse_user"), (String.eqb k "pulse_user_id"),
    (String.eqb k "pulse_api_key"); reflexivity.
Qed.

Lemma eqb_other (k key : string) : k <> key -> String.eqb k key = false.
Proof. apply String.eqb_neq. Qed.

Lemma toString_truthy (z : Z) :
  exists c s, Auth.Number_toString z = String c s.
Proof.
  unfold Auth.Number_toString.
  destruct z as [|p|p]; cbn [Z.to_int NilZero.string_of_int].
  - eexists _, _. reflexivity.
  - rewrite string_of_uint_nonnil by apply DecimalPos.Unsigned.to_uint_nonnil.
    pose proof (DecimalPos.Unsigned.to_uint_nonnil p).
    destruct (Pos.to_uint p); [congruence | eexists _, _; reflexivity ..].
  - eexists _, _. reflexivity.
Qed.

(** X14: [logout] ends the session and nothing else: afterwards
    [isAuthenticated] is false and [getUserId] and [getCurrentUser] return
    null; every other key of localStorage, the location and the log of
    requests are untouched; and logging out again changes nothing. *)
Theorem logout_clears (JSON_parse : string -> option Auth.User) (b : Auth.Browser) :
  let b' := Auth.logout b in
  Auth.isAuthenticated b' = false /\
  Auth.getUserId b' = None /\
  Auth.getCurrentUser JSON_parse b' = Auth.Returned None /\
  (forall k, k <> "pulse_api_key"%string -> k <> "pulse_user_id"%string ->
             k <> "pulse_user"%string ->
             Auth.getItem (Auth.localStorage b') k
             = Auth.getItem (Auth.localStorage b) k) /\
  Auth.location b' = Auth.location b /\
  Auth.requests b' = Auth.requests b /\
  (forall k, Auth.getItem (Auth.localStorage (Auth.logout b')) k
             = Auth.getItem (Auth.localStorage b') k).
Proof.
  cbv zeta. unfold Auth.isAuthenticated, Auth.getUserId, Auth.getCurrentUser,
    Auth.logout. cbn [Auth.localStorage Auth.location Auth.requests].
  rewrite !getItem_clear_auth. cbn.
  repeat split.
  - intros k H1 H2 H3. rewrite getItem_clear_auth.
    now rewrite (eqb_other _ _ H1), (eqb_other _ _ H2), (eqb_other _ _ H3).
  - intros k. rewrite !getItem_clear_auth.
    destruct (String.eqb k "pulse_api_key" || String.eqb k "pulse_user_id"
              || String.eqb k "pulse_user")%bool; reflexivity.
Qed.

Lemma store_auth_reads (JSON_stringify : Auth.User -> string)
    (b : Auth.Browser) (data : Auth.Onboard) :
  let b' := Auth.store_auth JSON_stringify b data in
  Auth.getItem (Auth.localStorage b') "pulse_api_key" = Some (Auth.api_key data) /\
  Auth.getItem (Auth.localStorage b') "pulse_user_id"
  = Some (Auth.Number_toString (Auth.id (Auth.user data))) /\
  Auth.getItem (Auth.localStorage b') "pulse_user"
  = Some (JSON_stringify (Auth.user data)) /\
  (forall k, k <> "pulse_api_key"%string -> k <> "pulse_user_id"%string ->
             k <> "pulse_user"%string ->
             Auth.getItem (Auth.localStorage b') k
             = Auth.getItem (Auth.localStorage b) k) /\
  Auth.location b' = Auth.location b /\ Auth.requests b' = Auth.requests b.
Proof.
  cbv zeta. unfold Auth.store_auth. cbn [Auth.localStorage Auth.location Auth.requests].
  rewrite !getItem_setItem. cbn.
  repeat split. intros k H1 H2 H3. rewrite !getItem_setItem.
  now rewrite (eqb_other _ _ H1), (eqb_other _ _ H2), (eqb_other _ _ H3).
Qed.

Lemma api_request_eq {D} (net : Auth.Request -> Auth.Reply D)
    (config : Auth.Request) (b : Auth.Browser) :
  Auth.api_request net config b
  = let sent := Auth.request_interceptor b config in
    let b1 := {| Auth.localStorage := Auth.localStorage b;
                 Auth.location := Auth.location b;
                 Auth.requests := Auth.requests b ++ [sent] |} in
    match net sent with
    | Auth.Fulfilled data => (b1, Auth.Fulfilled data)
    | Auth.Rejected status => (Auth.response_rejected b1 status, Auth.Rejected status)
    end.
Proof. reflexivity. Qed.

(** X15: a login that the server accepts opens the session it was given.
    Afterwards [getUserId] returns the id of the user (an integer that a
    number holds exactly), [isAuthenticated] holds exactly when the key
    received is not empty, "pulse_user" holds the user as JSON, which
    [getCurrentUser] returns when [JSON.parse] reads it back; no other key
    of localStorage and not the location are touched, and exactly one
    request was sent.  [signup] stores the same. *)
Theorem login_opens_session
    (JSON_stringify : Auth.User -> string) (JSON_parse : string -> option Auth.User)
    (email name password : string)
    (net : Auth.Request -> Auth.Reply Auth.Onboard)
    (b : Auth.Browser) (data : Auth.Onboard) :
  let sent :=
    Auth.request_interceptor b
      {| Auth.method := "POST"; Auth.url := "/auth/onboard";
         Auth.params := [("email", email); ("name", Auth.before "@" email)]%string;
         Auth.x_api_key := None; Auth.body := None |} in
  net sent = Auth.Fulfilled data ->
  (Z.abs (Auth.id (Auth.user data)) <= 2 ^ 53)%Z ->
  let out := Auth.login JSON_stringify email password net b in
  let b' := fst out in
  snd out = Auth.Returned (Auth.user data, Auth.api_key data) /\
  Auth.getUserId b' = Some (Auth.Num (Auth.id (Auth.user data))) /\
  Auth.isAuthenticated b' = negb (String.eqb (Auth.api_key data) "") /\
  Auth.getItem (Auth.localStorage b') "pulse_user"
  = Some (JSON_stringify (Auth.user data)) /\
  (JSON_stringify (Auth.user data) <> ""%string ->
   JSON_parse (JSON_stringify (Auth.user data)) = Some (Auth.user data) ->
   Auth.getCurrentUser JSON_parse b' = Auth.Returned (Some (Auth.user data))) /\
  (forall k, k <> "pulse_api_key"%string -> k <> "pulse_user_id"%string ->
             k <> "pulse_user"%string ->
             Auth.getItem (Auth.localStorage b') k
             = Auth.getItem (Auth.localStorage b) k) /\
  Auth.location b' = Auth.location b /\
  Auth.requests b' = Auth.requests b ++ [sent] /\
  (forall net',
      net' (Auth.request_interceptor b
              {| Auth.method := "POST"; Auth.url := "/auth/onboard";
                 Auth.params := [("email", email); ("name", name)]%string;
                 Auth.x_api_key := None; Auth.body := None |})
      = Auth.Fulfilled data ->
      forall k,
        Auth.getItem
          (Auth.localStorage
             (fst (Auth.signup JSON_stringify email name password net' b))) k
        = Auth.getItem (Auth.localStorage b') k).
Proof.
  intros sent Hnet _ out b'. subst out b'.
  unfold Auth.login. rewrite api_request_eq. cbv zeta. fold sent. rewrite Hnet.
  cbn [fst snd].
  set (b1 := {| Auth.localStorage := Auth.localStorage b;
                Auth.location := Auth.location b;
                Auth.requests := Auth.requests b ++ [sent] |}).
  destruct (store_auth_reads JSON_stringify b1 data) as (K1 & K2 & K3 & K4 & K5 & K6).
  cbv zeta in K1, K2, K3, K4, K5, K6.
  split; [reflexivity|].
  split.
  { unfold Auth.getUserId. rewrite K2.
    destruct (toString_truthy (Auth.id (Auth.user data))) as (c & s & E).
    rewrite E, <- E. f_equal.
    rewrite <- (append_empty (Auth.Number_toString _)).
    exact (parseInt_toString _ "" I). }
  split.
  { unfold Auth.isAuthenticated. rewrite K1.
    destruct (Auth.api_key data); reflexivity. }
  split; [exact K3|].
  split.
  { intros Hne Hparse. unfold Auth.getCurrentUser. rewrite K3.
    destruct (JSON_stringify (Auth.user data)) eqn:E; [congruence|].
    now rewrite Hparse. }
  split; [exact K4|].
  split; [exact K5|].
  split; [exact K6|].
  intros net' Hnet' k. unfold Auth.signup. rewrite api_request_eq. cbv zeta.
  rewrite Hnet'. cbn [fst].
  unfold Auth.store_auth. cbn [Auth.localStorage]. reflexivity.
Qed.

Lemma login_opens_session_witness :
  accepts {| Auth.user := alice; Auth.api_key := "k-1" |}
    (Auth.request_interceptor fresh_browser
       {| Auth.method := "POST"; Auth.url := "/auth/onboard";
          Auth.params := [("email", "alice@example.com");
                          ("name", Auth.before "@" "alice@example.com")]%string;
          Auth.x_api_key := None; Auth.body := None |})
  = Auth.Fulfilled {| Auth.user := alice; Auth.api_key := "k-1" |} /\
  (Z.abs (Auth.id alice) <= 2 ^ 53)%Z /\
  Auth.getUserId
    (fst (Auth.login user_text "alice@example.com" "secret"
            (accepts {| Auth.user := alice; Auth.api_key := "k-1" |})
            fresh_browser))
  = Some (Auth.Num 42).
Proof.
  assert (H1 : accepts {| Auth.user := alice; Auth.api_key := "k-1" |}
    (Auth.request_interceptor fresh_browser
       {| Auth.method := "POST"; Auth.url := "/auth/onboard";
          Auth.params := [("email", "alice@example.com");
                          ("name", Auth.before "@" "alice@example.com")]%string;
          Auth.x_api_key := None; Auth.body := None |})
  = Auth.Fulfilled {| Auth.user := alice; Auth.api_key := "k-1" |})
    by reflexivity.
  assert (H2 : (Z.abs (Auth.id alice) <= 2 ^ 53)%Z) by discriminate.
  split; [exact H1|]. split; [exact H2|].
  exact (proj1 (proj2 (login_opens_session user_text (fun _ => None)
                         "alice@example.com" "alice" "secret"
                         (accepts {| Auth.user := alice; Auth.api_key := "k-1" |})
                         fresh_browser
                         {| Auth.user := alice; Auth.api_key := "k-1" |} H1 H2))).
Defined.

(** ** The interceptors *)

(** X16: every request of the client carries the stored API key: the
    request sent has header X-API-Key set to the value of "pulse_api_key"
    whenever that value is not empty, and otherwise keeps the header it was
    given; method, url, parameters and body are never changed; the request
    is logged once and the reply is the network's. *)
Theorem api_request_carries_key {D} (net : Auth.Request -> Auth.Reply D)
    (config : Auth.Request) (b : Auth.Browser) :
  let sent := Auth.request_interceptor b config in
  let out := Auth.api_request net config b in
  Auth.x_api_key sent
  = (if Auth.isAuthenticated b
     then Auth.getItem (Auth.localStorage b) "pulse_api_key"
     else Auth.x_api_key config) /\
  Auth.method sent = Auth.method config /\ Auth.url sent = Auth.url config /\
  Auth.params sent = Auth.params config /\ Auth.body sent = Auth.body config /\
  Auth.requests (fst out) = Auth.requests b ++ [sent] /\
  snd out = net sent.
Proof.
  cbv zeta. rewrite api_request_eq. cbv zeta.
  unfold Auth.request_interceptor, Auth.isAuthenticated, Auth.truthy.
  destruct (Auth.getItem (Auth.localStorage b) "pulse_api_key") as [[|c k]|];
    cbn [Auth.x_api_key Auth.method Auth.url Auth.params Auth.body];
    repeat split;
    match goal with
    | |- context [net ?r] => destruct (net r) as [d|[[|[]|]|]]
    end; try reflexivity;
    unfold Auth.response_rejected; repeat match goal with
    | |- context [match ?p with _ => _ end] => destruct p
    end; reflexivity.
Qed.

(** X17: a reply with status 401 ends the session whatever the request was:
    afterwards [isAuthenticated] is false, [getUserId] is null, the
    location is "/login" and the other keys of localStorage are untouched.
    Any other reply, fulfilled or rejected, leaves localStorage and the
    location as they were. *)
Theorem api_request_unauthorized {D} (net : Auth.Request -> Auth.Reply D)
    (config : Auth.Request) (b : Auth.Browser) :
  let sent := Auth.request_interceptor b config in
  let b' := fst (Auth.api_request net config b) in
  (net sent = Auth.Rejected (Some 401%Z) ->
   Auth.isAuthenticated b' = false /\ Auth.getUserId b' = None /\
   Auth.location b' = "/login"%string /\
   (forall k, k <> "pulse_api_key"%string -> k <> "pulse_user_id"%string ->
              k <> "pulse_user"%string ->
              Auth.getItem (Auth.localStorage b') k
              = Auth.getItem (Auth.localStorage b) k)) /\
  (net sent <> Auth.Rejected (Some 401%Z) ->
   Auth.localStorage b' = Auth.localStorage b /\
   Auth.location b' = Auth.location b).
Proof.
  cbv zeta. rewrite api_request_eq. cbv zeta. split.
  - intros H. rewrite H. cbn [fst Auth.response_rejected].
    unfold Auth.isAuthenticated, Auth.getUserId.
    cbn [Auth.localStorage Auth.location].
    rewrite !getItem_clear_auth. cbn. repeat split.
    intros k H1 H2 H3. rewrite getItem_clear_auth.
    now rewrite (eqb_other _ _ H1), (eqb_other _ _ H2), (eqb_other _ _ H3).
  - intros H. destruct (net (Auth.request_interceptor b config)) as [d|st].
    + split; reflexivity.
    + cbn [fst]. unfold Auth.response_rejected.
      destruct st as [[|p|p]|]; try (split; reflexivity).
      destruct (Pos.eq_dec p 401) as [->|Hp]; [congruence|].
      assert (E : forall (A : Type) (x y : A),
                 match p with 401%positive => x | _ => y end = y).
      { intros A x y.
        repeat (destruct p as [p|p|]; try reflexivity; try congruence). }
      rewrite E. split; reflexivity.
Qed.

Lemma api_request_unauthorized_witness :
  rejects (D := unit) (Some 401%Z)
    (Auth.request_interceptor alice_browser
       {| Auth.method := "GET"; Auth.url := "/dashboard/summary/42";
          Auth.params := []; Auth.x_api_key := None; Auth.body := None |})
  = Auth.Rejected (Some 401%Z) /\
  Auth.isAuthenticated alice_browser = true /\
  Auth.isAuthenticated
    (fst (Auth.api_request (rejects (D := unit) (Some 401%Z))
            {| Auth.method := "GET"; Auth.url := "/dashboard/summary/42";
               Auth.params := []; Auth.x_api_key := None; Auth.body := None |}
            alice_browser)) = false.
Proof.
  assert (H : rejects (D := unit) (Some 401%Z)
    (Auth.request_interceptor alice_browser
       {| Auth.method := "GET"; Auth.url := "/dashboard/summary/42";
          Auth.params := []; Auth.x_api_key := None; Auth.body := None |})
  = Auth.Rejected (Some 401%Z)) by reflexivity.
  split; [exact H|]. split; [reflexivity|].
  exact (proj1 (proj1 (api_request_unauthorized (rejects (D := unit) (Some 401%Z))
            {| Auth.method := "GET"; Auth.url := "/dashboard/summary/42";
               Auth.params := []; Auth.x_api_key := None; Auth.body := None |}
            alice_browser) H)).
Defined.

(** ** The services *)

Lemma response_rejected_requests (b : Auth.Browser) (status : option Z) :
  Auth.requests (Auth.response_rejected b status) = Auth.requests b.
Proof.
  unfold Auth.response_rejected.
  repeat match goal with
  | |- context [match ?p with _ => _ end] => destruct p
  end; reflexivity.
Qed.

Lemma response_rejected_other (b : Auth.Browser) (status : option Z) :
  status <> Some 401%Z -> Auth.response_rejected b status = b.
Proof.
  intros H. unfold Auth.response_rejected.
  repeat match goal with
  | |- context [match ?p with _ => _ end] => destruct p
  end; try reflexivity. congruence.
Qed.

Lemma api_request_log {D} (net : Auth.Request -> Auth.Reply D)
    (config : Auth.Request) (b : Auth.Browser) :
  Auth.requests (fst (Auth.api_request net config b))
  = Auth.requests b ++ [Auth.request_interceptor b config] /\
  snd (Auth.api_request net config b) = net (Auth.request_interceptor b config).
Proof.
  rewrite api_request_eq. cbv zeta.
  destruct (net (Auth.request_interceptor b config)) as [d|st]; cbn [fst snd].
  - split; reflexivity.
  - rewrite response_rejected_requests. split; reflexivity.
Qed.

Lemma interceptor_validate (b : Auth.Browser) (c : ascii) (k : string) :
  Auth.getItem (Auth.localStorage b) "pulse_api_key" = Some (String c k) ->
  Auth.request_interceptor b (validate_request (String c k))
  = validate_request (String c k).
Proof. intros H. unfold Auth.request_interceptor. rewrite H. reflexivity. Qed.

(** X18: [validateSession] answers true exactly when a non-empty key is
    stored and the server answers the validation request, which carries
    that key, with [valid: true]; the session is then as it was.  Without
    a key it answers false and sends nothing.  With a key it sends exactly
    one request, and a 401 reply makes it answer false, ends the session
    and sets the location to "/login". *)
Theorem validateSession_sound (net : Auth.Request -> Auth.Reply bool)
    (b : Auth.Browser) :
  let out := Auth.validateSession net b in
  (snd out = true <->
   exists key, Auth.getItem (Auth.localStorage b) "pulse_api_key" = Some key /\
               key <> ""%string /\
               net (validate_request key) = Auth.Fulfilled true) /\
  (Auth.isAuthenticated b = false -> out = (b, false)) /\
  (snd out = true ->
   Auth.localStorage (fst out) = Auth.localStorage b /\
   Auth.location (fst out) = Auth.location b) /\
  (forall key,
      Auth.getItem (Auth.localStorage b) "pulse_api_key" = Some key ->
      key <> ""%string ->
      Auth.requests (fst out) = Auth.requests b ++ [validate_request key] /\
      (net (validate_request key) = Auth.Rejected (Some 401%Z) ->
       snd out = false /\ Auth.isAuthenticated (fst out) = false /\
       Auth.location (fst out) = "/login"%string)).
Proof.
  cbv zeta. unfold Auth.validateSession, Auth.isAuthenticated.
  destruct (Auth.getItem (Auth.localStorage b) "pulse_api_key")
    as [[|c k]|] eqn:E; cbn [Auth.truthy fst snd].
  - repeat split; try discriminate; try congruence.
    intros (key' & Hk & Hne & _). congruence.
  - fold (validate_request (String c k)).
    rewrite api_request_eq. cbv zeta. rewrite (interceptor_validate b c k E).
    destruct (net (validate_request (String c k))) as [valid|st] eqn:N;
      cbn [fst snd].
    + split; [split|].
      * intros ->. exists (String c k). repeat split; [discriminate|exact N].
      * intros (key' & Hk & _ & Hn). injection Hk as <-. congruence.
      * split; [discriminate|]. split; [split; reflexivity|].
        intros key' Hk _. injection Hk as <-. split; [reflexivity|].
        rewrite N. discriminate.
    + split; [split|].
      * discriminate.
      * intros (key' & Hk & _ & Hn). injection Hk as <-. congruence.
      * split; [discriminate|]. split; [discriminate|].
        intros key' Hk _. injection Hk as <-.
        split; [now rewrite response_rejected_requests|].
        rewrite N. intros [= ->]. cbn [Auth.response_rejected].
        unfold Auth.isAuthenticated. cbn [Auth.localStorage Auth.location].
        rewrite getItem_clear_auth. repeat split.
  - split; [split|].
    + discriminate.
    + intros (key' & Hk & _). discriminate.
    + split; [reflexivity|]. split; [discriminate|]. discriminate.
Qed.

Lemma validateSession_sound_witness :
  Auth.isAuthenticated fresh_browser = false /\
  Auth.validateSession (accepts true) fresh_browser = (fresh_browser, false).
Proof.
  assert (H : Auth.isAuthenticated fresh_browser = false) by reflexivity.
  split; [exact H|].
  exact (proj1 (proj2 (validateSession_sound (accepts true) fresh_browser)) H).
Defined.

(** X19: [login] is [signup] under the name that is the part of the email
    before its first "@": a prefix of the email without "@", and the whole
    email when it has none.  Neither sends the password: the result does
    not depend on it.  A login that the server rejects throws the
    rejection and stores nothing (a 401 ends the session, as for every
    request). *)
Theorem login_request (JSON_stringify : Auth.User -> string)
    (email password : string)
    (net : Auth.Request -> Auth.Reply Auth.Onboard) (b : Auth.Browser) :
  let name := Auth.before "@" email in
  let sent := Auth.request_interceptor b (onboard_request email name) in
  let out := Auth.login JSON_stringify email password net b in
  out = Auth.signup JSON_stringify email name password net b /\
  (exists rest, email = (name ++ rest)%string /\
                (rest = ""%string \/ exists r, rest = String "@" r)) /\
  ~ In "@"%char (list_ascii_of_string name) /\
  (forall password', Auth.login JSON_stringify email password' net b = out) /\
  Auth.requests (fst out) = Auth.requests b ++ [sent] /\
  (forall status, net sent = Auth.Rejected status ->
     snd out = Auth.Thrown (Auth.HttpError status) /\
     Auth.localStorage (fst out)
     = Auth.localStorage (Auth.response_rejected b status)).
Proof.
  cbv zeta. split; [reflexivity|]. split.
  { induction email as [|c s IH]; cbn [Auth.before].
    - exists ""%string. split; [reflexivity | now left].
    - destruct (Ascii.eqb c "@") eqn:E.
      + apply Ascii.eqb_eq in E. subst c. exists (String "@" s).
        split; [reflexivity | right; now exists s].
      + destruct IH as (rest & E1 & E2). exists rest. split; [|exact E2].
        cbn [append]. now rewrite <- E1. }
  split.
  { induction email as [|c s IH]; cbn [Auth.before].
    - intros [].
    - destruct (Ascii.eqb c "@") eqn:E; [intros []|].
      cbn [list_ascii_of_string]. intros [H|H]; [|exact (IH H)].
      subst c. discriminate. }
  split; [reflexivity|].
  unfold Auth.login. fold (onboard_request email (Auth.before "@" email)).
  pose proof (api_request_log net (onboard_request email (Auth.before "@" email)) b)
    as [L1 L2].
  rewrite api_request_eq in L1, L2 |- *. cbv zeta in L1, L2 |- *.
  destruct (net (Auth.request_interceptor b
                   (onboard_request email (Auth.before "@" email))))
    as [data|st]; cbn [fst snd] in L1, L2 |- *.
  - split; [exact L1 | discriminate].
  - split; [exact L1|]. intros status [= <-]. split; [reflexivity|].
    unfold Auth.response_rejected.
    repeat match goal with
    | |- context [match ?p with _ => _ end] => destruct p
    end; reflexivity.
Qed.

(** X20: what [submitManualEntry] does after a login that the server
    accepted with a user whose id a number holds exactly.  If that id is 0
    it throws "Not authenticated" and sends nothing, although
    [isAuthenticated] may hold.  Otherwise it sends exactly one request
    after the login's, to /webhook/ingest-and-analyze, carrying the key
    received (when not empty) and the entry with the time given, and it
    returns success or throws the rejection. *)
Theorem submitManualEntry_after_login (JSON_stringify : Auth.User -> string)
    (email password now : string)
    (net : Auth.Request -> Auth.Reply Auth.Onboard)
    (net' : Auth.Request -> Auth.Reply unit)
    (b : Auth.Browser) (data : Auth.Onboard) (entry : Auth.ManualData) :
  let sent :=
    Auth.request_interceptor b (onboard_request email (Auth.before "@" email)) in
  net sent = Auth.Fulfilled data ->
  (Z.abs (Auth.id (Auth.user data)) <= 2 ^ 53)%Z ->
  let b' := fst (Auth.login JSON_stringify email password net b) in
  let out := Auth.submitManualEntry entry now net' b' in
  if (Auth.id (Auth.user data) =? 0)%Z
  then out = (b', Auth.Thrown (Auth.JsError "Not authenticated"))
  else
    exists post,
      Auth.requests (fst out) = Auth.requests b ++ [sent; post] /\
      Auth.method post = "POST"%string /\
      Auth.url post = "/webhook/ingest-and-analyze"%string /\
      Auth.x_api_key post
      = (if String.eqb (Auth.api_key data) "" then None
         else Some (Auth.api_key data)) /\
      Auth.body post
      = Some {| Auth.time := now;
                Auth.bp_systolic := Auth.data_bp_systolic entry;
                Auth.bp_diastolic := Auth.data_bp_diastolic entry;
                Auth.blood_sugar := Auth.data_blood_sugar entry;
                Auth.symptoms := match Auth.data_symptoms entry with
                                 | Some l => Auth.join l
                                 | None => ""%string
                                 end |} /\
      snd out = match net' post with
                | Auth.Fulfilled _ =>
                    Auth.Returned (true, "Data logged successfully"%string)
                | Auth.Rejected status => Auth.Thrown (Auth.HttpError status)
                end.
Proof.
  intros sent Hnet _ b' out. subst out b'.
  assert (Hid : Auth.getUserId (fst (Auth.login JSON_stringify email password net b))
                = Some (Auth.Num (Auth.id (Auth.user data)))).
  { unfold Auth.login. fold (onboard_request email (Auth.before "@" email)).
    rewrite api_request_eq. cbv zeta. fold sent. rewrite Hnet. cbn [fst].
    unfold Auth.getUserId, Auth.store_auth. cbn [Auth.localStorage].
    rewrite !getItem_setItem. cbn [String.eqb Ascii.eqb Bool.eqb].
    destruct (toString_truthy (Auth.id (Auth.user data))) as (c & s & E).
    rewrite E, <- E. f_equal.
    rewrite <- (append_empty (Auth.Number_toString _)).
    exact (parseInt_toString _ "" I). }
  assert (Hkey : Auth.getItem
                   (Auth.localStorage
                      (fst (Auth.login JSON_stringify email password net b)))
                   "pulse_api_key" = Some (Auth.api_key data)).
  { unfold Auth.login. fold (onboard_request email (Auth.before "@" email)).
    rewrite api_request_eq. cbv zeta. fold sent. rewrite Hnet. cbn [fst].
    unfold Auth.store_auth. cbn [Auth.localStorage].
    rewrite !getItem_setItem. reflexivity. }
  assert (Hlog : Auth.requests
                   (fst (Auth.login JSON_stringify email password net b))
                 = Auth.requests b ++ [sent]).
  { unfold Auth.login. fold (onboard_request email (Auth.before "@" email)).
    rewrite api_request_eq. cbv zeta. fold sent. rewrite Hnet. reflexivity. }
  revert Hid Hkey Hlog.
  generalize (fst (Auth.login JSON_stringify email password net b)).
  intros b' Hid Hkey Hlog.
  unfold Auth.submitManualEntry. rewrite Hid. cbn [Auth.falsy_number].
  destruct (Auth.id (Auth.user data) =? 0)%Z; [reflexivity|].
  set (config := {| Auth.method := "POST";
                    Auth.url := "/webhook/ingest-and-analyze";
                    Auth.params := []; Auth.x_api_key := None;
                    Auth.body := _ |}).
  exists (Auth.request_interceptor b' config).
  destruct (api_request_log net' config b') as [L1 L2].
  destruct (Auth.api_request net' config b') as [b2 response].
  cbn [fst snd] in L1, L2.
  assert (R : Auth.requests b2
              = Auth.requests b ++ [sent; Auth.request_interceptor b' config]).
  { rewrite L1, Hlog, <- app_assoc. reflexivity. }
  assert (K : Auth.x_api_key (Auth.request_interceptor b' config)
              = if String.eqb (Auth.api_key data) "" then None
                else Some (Auth.api_key data)).
  { unfold Auth.request_interceptor. rewrite Hkey.
    destruct (Auth.api_key data); reflexivity. }
  assert (F : Auth.method (Auth.request_interceptor b' config) = "POST"%string /\
              Auth.url (Auth.request_interceptor b' config)
              = "/webhook/ingest-and-analyze"%string /\
              Auth.body (Auth.request_interceptor b' config) = Auth.body config).
  { unfold Auth.request_interceptor.
    destruct (Auth.getItem (Auth.localStorage b') "pulse_api_key") as [[|c k]|];
      repeat split. }
  destruct F as (F1 & F2 & F3).
  rewrite <- L2.
  destruct response as [[]|st]; cbn [fst snd]; repeat split; assumption.
Qed.

Lemma submitManualEntry_after_login_witness :
  accepts {| Auth.user := zero; Auth.api_key := "k-0" |}
    (Auth.request_interceptor fresh_browser
       (onboard_request "zero@example.com" (Auth.before "@" "zero@example.com")))
  = Auth.Fulfilled {| Auth.user := zero; Auth.api_key := "k-0" |} /\
  (Z.abs (Auth.id zero) <= 2 ^ 53)%Z /\
  Auth.isAuthenticated
    (fst (Auth.login user_text "zero@example.com" "secret"
            (accepts {| Auth.user := zero; Auth.api_key := "k-0" |})
            fresh_browser)) = true /\
  snd (Auth.submitManualEntry
         {| Auth.data_bp_systolic := Some (Auth.Num 120);
            Auth.data_bp_diastolic := None; Auth.data_blood_sugar := None;
            Auth.data_symptoms := None |}
         "2024-01-01T00:00:00.000Z" (accepts tt)
         (fst (Auth.login user_text "zero@example.com" "secret"
                 (accepts {| Auth.user := zero; Auth.api_key := "k-0" |})
                 fresh_browser)))
  = Auth.Thrown (Auth.JsError "Not authenticated").
Proof.
  assert (H1 : accepts {| Auth.user := zero; Auth.api_key := "k-0" |}
    (Auth.request_interceptor fresh_browser
       (onboard_request "zero@example.com" (Auth.before "@" "zero@example.com")))
  = Auth.Fulfilled {| Auth.user := zero; Auth.api_key := "k-0" |})
    by reflexivity.
  assert (H2 : (Z.abs (Auth.id zero) <= 2 ^ 53)%Z) by discriminate.
  split; [exact H1|]. split; [exact H2|]. split; [reflexivity|].
  exact (f_equal snd
           (submitManualEntry_after_login user_text "zero@example.com" "secret"
              "2024-01-01T00:00:00.000Z"
              (accepts {| Auth.user := zero; Auth.api_key := "k-0" |})
              (accepts tt) fresh_browser
              {| Auth.user := zero; Auth.api_key := "k-0" |}
              {| Auth.data_bp_systolic := Some (Auth.Num 120);
                 Auth.data_bp_diastolic := None; Auth.data_blood_sugar := None;
                 Auth.data_symptoms := None |} H1 H2)).
Defined.

(** X21: [submitManualEntry] needs a user id, not a key.  After [logout],
    and after any request that was answered with 401, it throws "Not
    authenticated" and sends nothing.  Where "pulse_user_id" holds a
    number other than 0 it sends its request even if no key is stored, and
    the request then carries no X-API-Key header. *)
Theorem submitManualEntry_needs_user_id (entry : Auth.ManualData) (now : string)
    (net : Auth.Request -> Auth.Reply unit) (b : Auth.Browser) :
  Auth.submitManualEntry entry now net (Auth.logout b)
  = (Auth.logout b, Auth.Thrown (Auth.JsError "Not authenticated")) /\
  (forall D (net0 : Auth.Request -> Auth.Reply D) (config : Auth.Request),
      net0 (Auth.request_interceptor b config) = Auth.Rejected (Some 401%Z) ->
      let b' := fst (Auth.api_request net0 config b) in
      Auth.submitManualEntry entry now net b'
      = (b', Auth.Thrown (Auth.JsError "Not authenticated"))) /\
  (forall z, Auth.getUserId b = Some (Auth.Num z) -> z <> 0%Z ->
             Auth.isAuthenticated b = false ->
             exists post,
               Auth.requests (fst (Auth.submitManualEntry entry now net b))
               = Auth.requests b ++ [post] /\
               Auth.x_api_key post = None /\
               Auth.url post = "/webhook/ingest-and-analyze"%string).
Proof.
  split; [|split].
  - unfold Auth.submitManualEntry, Auth.getUserId, Auth.logout.
    cbn [Auth.localStorage]. rewrite getItem_clear_auth. reflexivity.
  - intros D net0 config H. cbv zeta. rewrite api_request_eq. cbv zeta.
    rewrite H. cbn [fst Auth.response_rejected].
    unfold Auth.submitManualEntry, Auth.getUserId.
    cbn [Auth.localStorage]. rewrite getItem_clear_auth. reflexivity.
  - intros z Hid Hz Hkey. unfold Auth.submitManualEntry. rewrite Hid.
    cbn [Auth.falsy_number]. apply Z.eqb_neq in Hz. rewrite Hz.
    set (config := {| Auth.method := "POST";
                      Auth.url := "/webhook/ingest-and-analyze";
                      Auth.params := []; Auth.x_api_key := None;
                      Auth.body := _ |}).
    exists (Auth.request_interceptor b config).
    destruct (api_request_log net config b) as [L1 _].
    destruct (Auth.api_request net config b) as [b2 response].
    cbn [fst] in L1.
    assert (F : Auth.x_api_key (Auth.request_interceptor b config) = None /\
                Auth.url (Auth.request_interceptor b config)
                = "/webhook/ingest-and-analyze"%string).
    { unfold Auth.request_interceptor. unfold Auth.isAuthenticated in Hkey.
      destruct (Auth.getItem (Auth.localStorage b) "pulse_api_key") as [[|c k]|];
        try discriminate; split; reflexivity. }
    destruct response as [[]|st]; cbn [fst]; split; try exact L1; exact F.
Qed.

Lemma submitManualEntry_needs_user_id_witness :
  rejects (D := bool) (Some 401%Z)
    (Auth.request_interceptor alice_browser (validate_request "k-1"))
  = Auth.Rejected (Some 401%Z) /\
  Auth.falsy_number (Auth.getUserId alice_browser) = false /\
  snd (Auth.submitManualEntry
         {| Auth.data_bp_systolic := None; Auth.data_bp_diastolic := None;
            Auth.data_blood_sugar := Some (Auth.Num 95);
            Auth.data_symptoms := None |}
         "2024-01-01T00:00:00.000Z" (accepts tt)
         (fst (Auth.api_request (rejects (D := bool) (Some 401%Z))
                 (validate_request "k-1") alice_browser)))
  = Auth.Thrown (Auth.JsError "Not authenticated").
Proof.
  assert (H : rejects (D := bool) (Some 401%Z)
                (Auth.request_interceptor alice_browser (validate_request "k-1"))
              = Auth.Rejected (Some 401%Z)) by reflexivity.
  split; [exact H|]. split; [reflexivity|].
  exact (f_equal snd
           (proj1 (proj2 (submitManualEntry_needs_user_id
                            {| Auth.data_bp_systolic := None;
                               Auth.data_bp_diastolic := None;
                               Auth.data_blood_sugar := Some (Auth.Num 95);
                               Auth.data_symptoms := None |}
                            "2024-01-01T00:00:00.000Z" (accepts tt) alice_browser))
              bool (rejects (Some 401%Z)) (validate_request "k-1") H)).
Defined.

(** ** The Manual Entry page *)

Lemma toggleSymptom_In_same (s : string) (prev : list string) :
  In s (Auth.toggleSymptom s prev) <-> ~ In s prev.
Proof.
  unfold Auth.toggleSymptom.
  destruct (existsb (String.eqb s) prev) eqn:E.
  - apply existsb_exists in E. destruct E as (x & Hx & Ex).
    apply String.eqb_eq in Ex. subst x. split.
    + intros H. apply filter_In in H. destruct H as [_ H].
      rewrite String.eqb_refl in H. discriminate.
    + intros H. contradiction.
  - split.
    + intros _ H.
      assert (X : existsb (String.eqb s) prev = true).
      { apply existsb_exists. exists s. split; [exact H | apply String.eqb_refl]. }
      congruence.
    + intros _. apply in_or_app. right. now left.
Qed.

Lemma toggleSymptom_In_other (s t : string) (prev : list string) :
  t <> s -> (In t (Auth.toggleSymptom s prev) <-> In t prev).
Proof.
  intros Hts. unfold Auth.toggleSymptom.
  destruct (existsb (String.eqb s) prev).
  - rewrite filter_In. apply String.eqb_neq in Hts. rewrite Hts. cbn. tauto.
  - rewrite in_app_iff. cbn. split; [intros [H|[H|[]]]; congruence | tauto].
Qed.

Lemma toggleSymptom_NoDup (s : string) (prev : list string) :
  NoDup prev -> NoDup (Auth.toggleSymptom s prev).
Proof.
  intros H. unfold Auth.toggleSymptom.
  destruct (existsb (String.eqb s) prev) eqn:E.
  - now apply NoDup_filter.
  - apply NoDup_app; [exact H | repeat constructor; intros [] |].
    intros x Hx [Hs|[]]. subst x.
    assert (X : existsb (String.eqb s) prev = true).
    { apply existsb_exists. exists s. split; [exact Hx | apply String.eqb_refl]. }
    congruence.
Qed.

Lemma clicked_snoc (clicks : list string) (s : string) :
  clicked (clicks ++ [s]) = Auth.toggleSymptom s (clicked clicks).
Proof. unfold clicked. now rewrite fold_left_app. Qed.

(** X22: the symptom buttons.  Starting with none selected, after any
    sequence of clicks the selected symptoms have no duplicate, and a
    symptom is selected exactly when it was clicked an odd number of
    times; a click changes the membership of the symptom clicked and of no
    other. *)
Theorem toggleSymptom_parity (clicks : list string) (s : string) :
  NoDup (clicked clicks) /\
  (In s (clicked clicks) <-> Nat.odd (count_occ string_dec clicks s) = true) /\
  (forall prev t, In t (Auth.toggleSymptom s prev)
                  <-> (if string_dec t s then ~ In t prev else In t prev)).
Proof.
  split; [|split].
  - induction clicks as [|c clicks IH] using rev_ind.
    + constructor.
    + rewrite clicked_snoc. now apply toggleSymptom_NoDup.
  - induction clicks as [|c clicks IH] using rev_ind.
    + cbn. split; [intros [] | discriminate].
    + rewrite clicked_snoc, count_occ_app. cbn [count_occ].
      destruct (string_dec c s) as [->|Hne].
      * rewrite Nat.add_1_r, Nat.odd_succ, <- Nat.negb_odd.
        rewrite toggleSymptom_In_same, IH.
        destruct (Nat.odd (count_occ string_dec clicks s)); cbn; split;
          congruence.
      * rewrite Nat.add_0_r, <- IH.
        apply toggleSymptom_In_other. congruence.
  - intros prev t. destruct (string_dec t s) as [->|Hne].
    + apply toggleSymptom_In_same.
    + now apply toggleSymptom_In_other.
Qed.

Lemma keys_count_zero (bpSystolic bpDiastolic bloodSugar : string)
    (symptoms : list string) :
  (Auth.keys_count (Auth.form_data bpSystolic bpDiastolic bloodSugar symptoms)
   =? 0)%nat
  = (String.eqb bpSystolic "" && String.eqb bpDiastolic ""
     && String.eqb bloodSugar "" && (List.length symptoms =? 0)%nat)%bool.
Proof.
  destruct bpSystolic, bpDiastolic, bloodSugar, symptoms; reflexivity.
Qed.

Lemma entered_join (symptoms : list string) :
  match match symptoms with [] => None | _ :: _ => Some symptoms end with
  | Some l => Auth.join l
  | None => ""%string
  end = Auth.join symptoms.
Proof. destruct symptoms; reflexivity. Qed.

(** X23: [handleSubmit] with the user id that the page read from the
    browser it submits from.  Without a user id (null, NaN or 0) it throws
    "Please log in to submit health data"; with one and an empty form
    (three empty fields, no symptom) it throws "Please enter at least one
    measurement or symptom"; in both cases nothing is sent.  Otherwise
    the second check of the user id, in [submitManualEntry], never fails:
    exactly one request is sent, whose record holds [parseInt] of each
    field that is not empty (NaN included) and the symptoms joined by
    commas, and the outcome is the network's. *)
Theorem handleSubmit_sends (bpSystolic bpDiastolic bloodSugar now : string)
    (symptoms : list string) (net : Auth.Request -> Auth.Reply unit)
    (b : Auth.Browser) :
  let userId := Auth.getUserId b in
  let out :=
    Auth.handleSubmit userId bpSystolic bpDiastolic bloodSugar symptoms now net b in
  let blank :=
    (String.eqb bpSystolic "" && String.eqb bpDiastolic ""
     && String.eqb bloodSugar "" && (List.length symptoms =? 0)%nat)%bool in
  if Auth.falsy_number userId
  then out = (b, Auth.Thrown (Auth.JsError "Please log in to submit health data"))
  else if blank
  then out = (b, Auth.Thrown
                   (Auth.JsError "Please enter at least one measurement or symptom"))
  else
    exists post,
      Auth.requests (fst out) = Auth.requests b ++ [post] /\
      Auth.body post
      = Some {| Auth.time := now;
                Auth.bp_systolic := entered bpSystolic;
                Auth.bp_diastolic := entered bpDiastolic;
                Auth.blood_sugar := entered bloodSugar;
                Auth.symptoms := Auth.join symptoms |} /\
      snd out = match net post with
                | Auth.Fulfilled _ => Auth.Returned tt
                | Auth.Rejected status => Auth.Thrown (Auth.HttpError status)
                end.
Proof.
  cbv zeta. unfold Auth.handleSubmit, Auth.handleSubmit_checks.
  destruct (Auth.falsy_number (Auth.getUserId b)) eqn:G; [reflexivity|].
  rewrite keys_count_zero.
  destruct (String.eqb bpSystolic "" && String.eqb bpDiastolic ""
            && String.eqb bloodSugar "" && (List.length symptoms =? 0)%nat)%bool;
    [reflexivity|].
  unfold Auth.submitManualEntry. rewrite G.
  unfold Auth.form_data.
  cbn [Auth.data_bp_systolic Auth.data_bp_diastolic Auth.data_blood_sugar
       Auth.data_symptoms].
  rewrite entered_join.
  set (config := {| Auth.method := "POST";
                    Auth.url := "/webhook/ingest-and-analyze";
                    Auth.params := []; Auth.x_api_key := None;
                    Auth.body := _ |}).
  exists (Auth.request_interceptor b config).
  destruct (api_request_log net config b) as [L1 L2].
  destruct (Auth.api_request net config b) as [b2 response].
  cbn [fst snd] in L1, L2.
  assert (F : Auth.body (Auth.request_interceptor b config) = Auth.body config).
  { unfold Auth.request_interceptor.
    destruct (Auth.getItem (Auth.localStorage b) "pulse_api_key") as [[|c k]|];
      reflexivity. }
  rewrite <- L2.
  destruct response as [[]|st]; cbn [fst snd]; repeat split; assumption.
Qed.

(** ** The auth context *)



(** X25: in the context, a login that the server accepts sets the user
    received, and [logout] removes it and ends the session in the browser;
    a login that is rejected throws and leaves the context as it was.  The
    context may hold a user while [authService.isAuthenticated] is false:
    that happens exactly when the key received is empty. *)
Theorem AuthProvider_login_logout (JSON_stringify : Auth.User -> string)
    (email password : string)
    (net : Auth.Request -> Auth.Reply Auth.Onboard)
    (b : Auth.Browser) (st : AuthProvider.State) :
  let sent :=
    Auth.request_interceptor b (onboard_request email (Auth.before "@" email)) in
  let '(b', st', out) :=
    AuthProvider.login JSON_stringify email password net b st in
  match net sent with
  | Auth.Fulfilled data =>
      out = Auth.Returned tt /\
      AuthProvider.user st' = Some (Auth.user data) /\
      AuthProvider.isAuthenticated st' = true /\
      AuthProvider.isLoading st' = AuthProvider.isLoading st /\
      Auth.isAuthenticated b' = negb (String.eqb (Auth.api_key data) "") /\
      AuthProvider.isAuthenticated (snd (AuthProvider.logout b' st')) = false /\
      Auth.isAuthenticated (fst (AuthProvider.logout b' st')) = false
  | Auth.Rejected status =>
      out = Auth.Thrown (Auth.HttpError status) /\ st' = st
  end.
Proof.
  cbv zeta. unfold AuthProvider.login, Auth.login.
  fold (onboard_request email (Auth.before "@" email)).
  rewrite api_request_eq. cbv zeta.
  destruct (net (Auth.request_interceptor b
                   (onboard_request email (Auth.before "@" email))))
    as [data|status].
  - cbn [AuthProvider.user AuthProvider.isLoading].
    split; [reflexivity|]. split; [reflexivity|]. split; [reflexivity|].
    split; [reflexivity|]. split.
    + unfold Auth.isAuthenticated, Auth.store_auth. cbn [Auth.localStorage].
      rewrite !getItem_setItem. cbn [String.eqb Ascii.eqb Bool.eqb].
      destruct (Auth.api_key data); reflexivity.
    + split; [reflexivity|].
      unfold AuthProvider.logout, Auth.logout, Auth.isAuthenticated.
      cbn [fst Auth.localStorage]. rewrite getItem_clear_auth. reflexivity.
  - split; reflexivity.
Qed.

(** ** The doctor's and the caretaker's dashboards *)

Lemma num_ge_true (a b : number) : (a >=? b) = true <-> b <= a.
Proof.
  unfold num_ge. destruct (a ?= b) eqn:E.
  - apply Qeq_alt in E. split; [intros _; lra | reflexivity].
  - apply Qlt_alt in E. split; [discriminate | intros; lra].
  - apply Qgt_alt in E. split; [intros _; lra | reflexivity].
Qed.

Lemma num_ge_false (a b : number) : (a >=? b) = false <-> a < b.
Proof.
  unfold num_ge. destruct (a ?= b) eqn:E.
  - apply Qeq_alt in E. split; [discriminate | intros; lra].
  - apply Qlt_alt in E. split; [intros _; exact E | reflexivity].
  - apply Qgt_alt in E. split; [discriminate | intros; lra].
Qed.

(** X26: the two ladders of the doctor's dashboard agree: [getRiskColor]
    and [getRiskBg] always name the same colour.  No score and a score of
    0 are both shown in slate; any other score is red from 70, amber from
    50, yellow from 25 and emerald below, negative scores included. *)
Theorem getRisk_ladders_agree (score : option number) :
  let c := DoctorDashboard.getRiskColor score in
  let g := DoctorDashboard.getRiskBg score in
  In (c, g)
     [("text-slate-400", "bg-slate-700"); ("text-red-400", "bg-red-500/20");
      ("text-amber-400", "bg-amber-500/20");
      ("text-yellow-400", "bg-yellow-500/20");
      ("text-emerald-400", "bg-emerald-500/20")]%string /\
  (c = "text-slate-400"%string
   <-> score = None \/ exists q, score = Some q /\ q == 0) /\
  (forall q, score = Some q ->
     (c = "text-red-400"%string <-> 70 <= q) /\
     (c = "text-amber-400"%string <-> 50 <= q < 70) /\
     (c = "text-yellow-400"%string <-> 25 <= q < 50) /\
     (c = "text-emerald-400"%string <-> q < 25 /\ ~ q == 0)).
Proof.
  cbv zeta. destruct score as [q|].
  2:{ cbn. split; [tauto|]. split; [|discriminate].
      split; [now left | reflexivity]. }
  unfold DoctorDashboard.getRiskColor, DoctorDashboard.getRiskBg,
    DoctorDashboard.no_score.
  destruct (Qeq_bool q 0) eqn:Z.
  - apply Qeq_bool_iff in Z. split; [cbn; tauto|]. split.
    + split; [intros _; right; now exists q | reflexivity].
    + intros q' [= <-]. repeat split; try discriminate; intros; exfalso; lra.
  - assert (Z' : ~ q == 0).
    { intros H. apply Qeq_bool_iff in H. congruence. }
    destruct (q >=? 70) eqn:E70; [|destruct (q >=? 50) eqn:E50;
      [|destruct (q >=? 25) eqn:E25]];
      try apply num_ge_true in E70; try apply num_ge_false in E70;
      try apply num_ge_true in E50; try apply num_ge_false in E50;
      try apply num_ge_true in E25; try apply num_ge_false in E25.
    all: split; [cbn; tauto|].
    all: split;
      [split; [discriminate | intros [H | (q' & [= <-] & H)];
                               [discriminate | contradiction]]|].
    all: intros q' [= <-]; repeat split; try discriminate; try assumption;
      try reflexivity; intros; try (exfalso; lra); lra.
Qed.

Lemma toString_num (x : Z) : Time.toString (Auth.Num x) = Auth.Number_toString x.
Proof. reflexivity. Qed.

(** X27: [formatTimeAgo] for a valid date, with [d] the milliseconds
    elapsed.  Less than an hour, a date in the future included, is "Just
    now"; from one hour to less than a day it prints the number [h] of
    whole hours elapsed, from 1 to 23; from one day on it prints the number
    [n] of whole days elapsed, at least 1.  The doctor's and the
    caretaker's versions print the same number with the same unit. *)
Theorem formatTimeAgo_units (Date_parse : string -> Auth.jsnum)
    (c : ascii) (s : string) (t now : Z) :
  Date_parse (String c s) = Auth.Num t ->
  (0 <= t <= max_time)%Z -> (0 <= now <= max_time)%Z ->
  let d := (now - t)%Z in
  let doctor := DoctorDashboard.formatTimeAgo Date_parse (Some (String c s)) now in
  let caretaker :=
    CaretakerDashboard.formatTimeAgo Date_parse (Some (String c s)) now in
  ((d < 3600000)%Z ->
   doctor = "Just now"%string /\ caretaker = "Just now"%string) /\
  ((3600000 <= d < 86400000)%Z ->
   exists h, (1 <= h <= 23 /\ h * 3600000 <= d < (h + 1) * 3600000)%Z /\
     doctor = (Auth.Number_toString h ++ "h ago")%string /\
     caretaker = (Auth.Number_toString h ++ " hours ago")%string) /\
  ((86400000 <= d)%Z ->
   exists n, (1 <= n /\ n * 86400000 <= d < (n + 1) * 86400000)%Z /\
     doctor = (Auth.Number_toString n ++ "d ago")%string /\
     caretaker = (Auth.Number_toString n ++ " days ago")%string).
Proof.
  intros HP _ _. cbv zeta.
  unfold DoctorDashboard.formatTimeAgo, CaretakerDashboard.formatTimeAgo.
  cbn [Auth.truthy negb]. rewrite HP. cbv zeta.
  cbn [Time.sub Time.floor_div Time.lt].
  change (1000 * 60 * 60)%Z with 3600000%Z.
  rewrite !toString_num.
  set (d := (now - t)%Z). clearbody d.
  split; [|split].
  - intros H.
    assert (E : (d / 3600000 <? 1)%Z = true).
    { apply Z.ltb_lt. Z.to_euclidean_division_equations. lia. }
    rewrite E. split; reflexivity.
  - intros H.
    assert (E1 : (d / 3600000 <? 1)%Z = false).
    { apply Z.ltb_ge. Z.to_euclidean_division_equations. lia. }
    assert (E2 : (d / 3600000 <? 24)%Z = true).
    { apply Z.ltb_lt. Z.to_euclidean_division_equations. lia. }
    rewrite E1, E2. exists (d / 3600000)%Z.
    split; [|split; reflexivity].
    Z.to_euclidean_division_equations. lia.
  - intros H.
    assert (E1 : (d / 3600000 <? 1)%Z = false).
    { apply Z.ltb_ge. Z.to_euclidean_division_equations. lia. }
    assert (E2 : (d / 3600000 <? 24)%Z = false).
    { apply Z.ltb_ge. Z.to_euclidean_division_equations. lia. }
    rewrite E1, E2. exists (d / 3600000 / 24)%Z.
    split; [|split; reflexivity].
    Z.to_euclidean_division_equations. lia.
Qed.

Lemma formatTimeAgo_units_witness :
  millis "1700000000000" = Auth.Num 1700000000000 /\
  (0 <= 1700000000000 <= max_time)%Z /\ (0 <= 1700180000000 <= max_time)%Z /\
  DoctorDashboard.formatTimeAgo millis (Some "1700000000000"%string) 1700180000000
  = "2d ago"%string /\
  CaretakerDashboard.formatTimeAgo millis (Some "1700000000000"%string)
    1700180000000
  = "2 days ago"%string.
Proof.
  assert (H1 : millis "1700000000000" = Auth.Num 1700000000000) by reflexivity.
  assert (H2 : (0 <= 1700000000000 <= max_time)%Z)
    by (split; discriminate).
  assert (H3 : (0 <= 1700180000000 <= max_time)%Z)
    by (split; discriminate).
  split; [exact H1|]. split; [exact H2|]. split; [exact H3|].
  destruct (proj2 (proj2 (formatTimeAgo_units millis "1" "700000000000"
                            1700000000000 1700180000000 H1 H2 H3)))
    as (n & (N1 & N2 & N3) & D & C); [discriminate|].
  assert (E : n = 2%Z) by lia. subst n. split; [exact D | exact C].
Defined.

(** ** The layout of the dashboard pages *)

Lemma split_nonempty (sep : ascii) (s : string) :
  DashboardLayout.split sep s <> [].
Proof.
  destruct s as [|c s]; cbn [DashboardLayout.split]; [discriminate|].
  destruct (Ascii.eqb c sep); [discriminate|].
  destruct (DashboardLayout.split sep s); discriminate.
Qed.

(** The piece before the first separator is what [login] sends as name. *)
Lemma split_head (sep : ascii) (s : string) :
  hd EmptyString (DashboardLayout.split sep s) = Auth.before sep s.
Proof.
  induction s as [|c s IH]; cbn [DashboardLayout.split Auth.before];
    [reflexivity|].
  destruct (Ascii.eqb c sep); [reflexivity|].
  destruct (DashboardLayout.split sep s) as [|p ps] eqn:E.
  - now destruct (split_nonempty sep s).
  - cbn [hd] in IH |- *. now rewrite IH.
Qed.

Lemma join_initials (pieces : list string) :
  DashboardLayout.toUpperCase
    (DashboardLayout.join (map DashboardLayout.first pieces))
  = String.concat ""
      (map initial (filter (fun p => negb (String.eqb p "")) pieces)).
Proof.
  induction pieces as [|p ps IH]; [reflexivity|].
  destruct p as [|c p]; cbn [map DashboardLayout.first DashboardLayout.join filter
                             String.eqb negb].
  - exact IH.
  - cbn [DashboardLayout.toUpperCase initial]. rewrite IH.
    destruct (filter (fun p0 => negb (String.eqb p0 "")) ps); reflexivity.
Qed.

Lemma concat_initials_cons (w : string) (ws : list string) :
  String.concat "" (map initial (w :: ws))
  = (initial w ++ String.concat "" (map initial ws))%string.
Proof.
  cbn [map String.concat]. destruct (map initial ws) as [|x xs] eqn:E.
  - cbn. now rewrite append_empty.
  - reflexivity.
Qed.

Lemma slice_initials (ws : list string) :
  Forall (fun w => w <> ""%string) ws ->
  DashboardLayout.slice_0_2 (String.concat "" (map initial ws))
  = String.concat "" (map initial (firstn 2 ws)).
Proof.
  intros H. unfold DashboardLayout.slice_0_2.
  destruct H as [|w1 ws1 H1 H]; [reflexivity|].
  destruct w1 as [|c1 w1]; [congruence|].
  destruct H as [|w2 ws2 H2 H]; [reflexivity|].
  destruct w2 as [|c2 w2]; [congruence|].
  rewrite !concat_initials_cons. cbn [initial append substring firstn].
  rewrite concat_initials_cons. cbn [initial append map String.concat].
  now destruct (String.concat "" (map initial ws2)).
Qed.

Lemma words_nonempty (name : string) :
  Forall (fun w => w <> ""%string) (words name).
Proof.
  unfold words. apply Forall_forall. intros w Hw.
  apply filter_In in Hw. destruct Hw as [_ Hw].
  intros ->. discriminate.
Qed.

Lemma split_spaceless (s : string) :
  Forall spaceless (DashboardLayout.split " " s).
Proof.
  induction s as [|c s IH]; cbn [DashboardLayout.split].
  - repeat constructor.
  - destruct (Ascii.eqb c " ") eqn:E.
    + constructor; [exact I | exact IH].
    + apply Ascii.eqb_neq in E.
      destruct (DashboardLayout.split " " s) as [|p ps].
      * repeat constructor. exact E.
      * inversion IH as [|? ? Hp Hps]; subst.
        constructor; [split; assumption | exact Hps].
Qed.

Lemma upper_not_lower (c : ascii) :
  (N_of_ascii c < 128)%N ->
  ~ (97 <= N_of_ascii (DashboardLayout.upper c) <= 122)%N.
Proof.
  intros Hc. unfold DashboardLayout.upper. cbv zeta.
  destruct ((97 <=? N_of_ascii c) && (N_of_ascii c <=? 122))%N eqn:E.
  - apply andb_prop in E. destruct E as [E1 E2].
    apply N.leb_le in E1, E2.
    rewrite N_ascii_embedding by lia. lia.
  - apply andb_false_iff in E. destruct E as [E|E]; apply N.leb_gt in E; lia.
Qed.

Lemma split_ascii (s : string) :
  ascii_only s -> Forall ascii_only (DashboardLayout.split " " s).
Proof.
  induction s as [|c s IH]; cbn [DashboardLayout.split ascii_only].
  - repeat constructor.
  - intros [Hc Hs]. specialize (IH Hs). destruct (Ascii.eqb c " ").
    + constructor; [exact I | exact IH].
    + destruct (DashboardLayout.split " " s) as [|p ps].
      * repeat constructor. exact Hc.
      * inversion IH as [|? ? Hp Hps]; subst.
        constructor; [split; assumption | exact Hps].
Qed.

Lemma initials_no_lower_case (ws : list string) :
  Forall (fun w => w <> ""%string) ws -> Forall ascii_only ws ->
  no_lower_case (String.concat "" (map initial (firstn 2 ws))).
Proof.
  intros H A.
  destruct H as [|[|c1 w1] ws1 H1 H]; [exact I | congruence |].
  inversion A as [|? ? A1 A']; subst. cbn [ascii_only] in A1.
  destruct A1 as [A1 _].
  destruct H as [|[|c2 w2] ws2 H2 H]; [| congruence |].
  - cbn. split; [now apply upper_not_lower | exact I].
  - inversion A' as [|? ? A2 _]; subst. cbn [ascii_only] in A2.
    destruct A2 as [A2 _].
    cbn. split; [now apply upper_not_lower|].
    split; [now apply upper_not_lower | exact I].
Qed.

(** X28: the initials in the avatar, for a name of characters below 128.
    With a name that is not empty, the initials are the capital first
    letters of the first two words of the name, a word being what stands
    between spaces: they have at most two characters, no lower-case letter,
    and there is none when the name is made of spaces only.  With an empty
    name, as without a user, the avatar shows "U". *)
Theorem userInitials_words (u : Auth.User) :
  ascii_only (Auth.name u) ->
  let shown := DashboardLayout.userInitials (Some u) in
  (String.length shown <= 2)%nat /\ no_lower_case shown /\
  (if String.eqb (Auth.name u) "" then shown = "U"%string
   else
     shown = String.concat "" (map initial (firstn 2 (words (Auth.name u)))) /\
     Forall spaceless (words (Auth.name u)) /\
     (words (Auth.name u) = [] <-> shown = ""%string)) /\
  DashboardLayout.userInitials None = "U"%string.
Proof.
  intros HA. cbv zeta.
  assert (L : forall ws, Forall (fun w => w <> ""%string) ws ->
                (String.length (String.concat "" (map initial (firstn 2 ws)))
                 <= 2)%nat).
  { intros ws H. destruct H as [|[|c1 w1] ws1 H1 H]; [cbn; lia | congruence |].
    destruct H as [|[|c2 w2] ws2 H2 H]; [cbn; lia | congruence |].
    cbn. lia. }
  unfold DashboardLayout.userInitials.
  destruct (Auth.name u) as [|c s] eqn:N.
  { split; [cbn; lia|]. split; [|split; reflexivity].
    split; [cbn; lia | exact I]. }
  rewrite join_initials. fold (words (String c s)).
  rewrite slice_initials by apply words_nonempty.
  split; [apply L, words_nonempty|].
  split.
  { apply initials_no_lower_case; [apply words_nonempty|].
    unfold words. apply Forall_forall. intros w Hw. apply filter_In in Hw.
    destruct Hw as [Hw _].
    exact (proj1 (Forall_forall _ _) (split_ascii (String c s) HA) w Hw). }
  split; [|reflexivity].
  cbn [String.eqb]. split; [reflexivity|]. split.
  - unfold words. apply Forall_forall. intros w Hw. apply filter_In in Hw.
    destruct Hw as [Hw _].
    exact (proj1 (Forall_forall _ _) (split_spaceless (String c s)) w Hw).
  - pose proof (words_nonempty (String c s)) as H.
    destruct H as [|[|c1 w1] ws1 H1 H]; [split; reflexivity | congruence |].
    split; [discriminate|].
    destruct H as [|[|c2 w2] ws2 H2 H]; [discriminate | congruence | discriminate].
Qed.

Lemma userInitials_words_witness :
  ascii_only (Auth.name ada) /\
  DashboardLayout.userInitials (Some ada) = "AK"%string /\
  no_lower_case (DashboardLayout.userInitials (Some ada)).
Proof.
  assert (H : ascii_only (Auth.name ada)) by (cbn; repeat split).
  split; [exact H|]. split; [reflexivity|].
  exact (proj1 (proj2 (userInitials_words ada H))).
Defined.
